(** * Exercise-form analysis engine: [services/pose_analyzer.py]

    A shallow embedding of the [PoseAnalyzer] class and the properties its
    specification states about it.

    Numbers.  Python floats are modelled as real numbers ([R]): sums,
    products, quotients, square roots and arccosines are exact.  Rounding,
    overflow and NaN of IEEE binary64 are outside this model.

    Dictionaries.  The angle dictionary is a [gmap string (option R)]: a key
    can be missing, or present with the value [None].  A keypoint dictionary
    is a record of three optional fields.

    Exceptions.  The operations of the source that can raise on numbers
    (division, [math.sqrt], [math.acos]) return a [result]; the functions
    that call them are written in the corresponding monad. *)

From Stdlib Require Import Reals Lra Lia.
From Stdlib Require Floats.
From stdpp Require Import base decidable option list gmap strings.

Local Open Scope R_scope.

(** ** Numbers *)

#[global] Instance Rlt_decision (x y : R) : Decision (x < y) := Rlt_dec x y.
#[global] Instance Rgt_decision (x y : R) : Decision (x > y) := Rgt_dec x y.
#[global] Instance Req_decision : EqDecision R := Req_dec_T.

(** ** Exceptions *)

Inductive pyexn : Type :=
  | ZeroDivisionError
  | ValueError
  | OverflowError.

Inductive result (A : Type) : Type :=
  | Ok (a : A)
  | Raise (e : pyexn).

Arguments Ok {A} a.
Arguments Raise {A} e.

#[global] Instance result_ret : MRet result := fun A a => Ok a.
#[global] Instance result_bind : MBind result := fun A B f m =>
  match m with
  | Ok a => f a
  | Raise e => Raise e
  end.

(** [x / y] on floats. *)
Definition py_div (x y : R) : result R :=
  if decide (y = 0) then Raise ZeroDivisionError else Ok (x / y).

(** [math.sqrt]: a negative argument is a domain error. *)
Definition math_sqrt (x : R) : result R :=
  if decide (x < 0) then Raise ValueError else Ok (sqrt x).

(** [math.acos]: an argument outside [-1, 1] is a domain error. *)
Definition math_acos (x : R) : result R :=
  if decide (x < -1) then Raise ValueError
  else if decide (x > 1) then Raise ValueError
  else Ok (acos x).

(** [math.degrees]. *)
Definition math_degrees (x : R) : R := x * (180 / PI).

(** The builtins [min(a, b)] and [max(a, b)]: the first argument is kept
    unless the second is strictly smaller (larger). *)
Definition py_min (a b : R) : R := if decide (b < a) then b else a.
Definition py_max (a b : R) : R := if decide (b > a) then b else a.

(** Truth value of an [Optional[float]]: [None] and [0.0] are false. *)
Definition truthy (o : option R) : bool :=
  match o with
  | Some x => bool_decide (x ≠ 0)
  | None => false
  end.

(** [f(a, b) if a and b else g], for two optional floats. *)
Definition if_both {A : Type} (a b : option R) (f : R → R → A) (g : A) : A :=
  match a, b with
  | Some x, Some y => if truthy a && truthy b then f x y else g
  | _, _ => g
  end.

(** ** Data model *)

(** A keypoint dictionary of the input list: the keys ["x"], ["y"] and
    ["score"] may each be missing. *)
Record keypoint : Type := Keypoint {
  kp_x : option R;
  kp_y : option R;
  kp_score : option R
}.

(** A keypoint that went through [_get_point]: both coordinates are there,
    so that [p["x"]] and [p["y"]] cannot fail. *)
Record point : Type := Point {
  px : R;
  py : R;
  pscore : option R
}.

(** The angle dictionary. *)
Abbreviation angle_map := (gmap string (option R)).

(** [angles.get(k)] and [angles.get(k, d)]. *)
Definition dict_get (angles : angle_map) (k : string) : option R :=
  match angles !! k with
  | Some v => v
  | None => None
  end.

Definition dict_get_default (angles : angle_map) (k : string) (d : R) : option R :=
  match angles !! k with
  | Some v => v
  | None => Some d
  end.

(** [self.joint_indices] *)
Definition joint_indices : gmap string nat :=
  list_to_map
    [ ("nose", 0%nat); ("left_eye", 1%nat); ("right_eye", 2%nat);
      ("left_ear", 3%nat); ("right_ear", 4%nat);
      ("left_shoulder", 5%nat); ("right_shoulder", 6%nat);
      ("left_elbow", 7%nat); ("right_elbow", 8%nat);
      ("left_wrist", 9%nat); ("right_wrist", 10%nat);
      ("left_hip", 11%nat); ("right_hip", 12%nat);
      ("left_knee", 13%nat); ("right_knee", 14%nat);
      ("left_ankle", 15%nat); ("right_ankle", 16%nat) ].

(** ** [_get_point] *)

Definition _get_point (keypoints : list keypoint) (joint_name : string) : option point :=
  match joint_indices !! joint_name with
  | None => None
  | Some index =>
      if decide (length keypoints ≤ index)%nat then None
      else
        match keypoints !! index with
        | None => None
        | Some kp =>
            match kp_x kp, kp_y kp with
            | Some x, Some y => Some (Point x y (kp_score kp))
            | _, _ => None
            end
        end
  end.

(** ** [_calculate_angle] *)

Definition min_confidence : R := 0.2.

(** ["score" in p and p["score"] < min_confidence] *)
Definition low_confidence (p : point) : bool :=
  match pscore p with
  | Some s => bool_decide (s < min_confidence)
  | None => false
  end.

Definition _calculate_angle (point1 point2 point3 : option point) : result (option R) :=
  match point1, point2, point3 with
  | Some p1, Some p2, Some p3 =>
      if low_confidence p1 || low_confidence p2 || low_confidence p3 then Ok None
      else
        let vector1 := (px p1 - px p2, py p1 - py p2) in
        let vector2 := (px p3 - px p2, py p3 - py p2) in
        let dot_product := vector1.1 * vector2.1 + vector1.2 * vector2.2 in
        magnitude1 ← math_sqrt (vector1.1 ^ 2 + vector1.2 ^ 2);
        magnitude2 ← math_sqrt (vector2.1 ^ 2 + vector2.2 ^ 2);
        if decide (magnitude1 * magnitude2 = 0) then Ok None
        else
          cosine ← py_div dot_product (magnitude1 * magnitude2);
          let cosine := py_max (-1) (py_min 1 cosine) in
          angle_radians ← math_acos cosine;
          let angle_degrees := math_degrees angle_radians in
          Ok (Some angle_degrees)
  | _, _, _ => Ok None
  end.

(** ** [_calculate_joint_angles] *)

Definition _calculate_joint_angles (keypoints : list keypoint) : result angle_map :=
  let angles : angle_map := ∅ in
  if bool_decide (keypoints = []) || bool_decide (length keypoints < 17)%nat
  then Ok angles
  else
    a ← _calculate_angle (_get_point keypoints "left_shoulder")
                         (_get_point keypoints "left_elbow")
                         (_get_point keypoints "left_wrist");
    let angles := <["left_elbow" := a]> angles in
    a ← _calculate_angle (_get_point keypoints "right_shoulder")
                         (_get_point keypoints "right_elbow")
                         (_get_point keypoints "right_wrist");
    let angles := <["right_elbow" := a]> angles in
    a ← _calculate_angle (_get_point keypoints "left_elbow")
                         (_get_point keypoints "left_shoulder")
                         (_get_point keypoints "left_hip");
    let angles := <["left_shoulder" := a]> angles in
    a ← _calculate_angle (_get_point keypoints "right_elbow")
                         (_get_point keypoints "right_shoulder")
                         (_get_point keypoints "right_hip");
    let angles := <["right_shoulder" := a]> angles in
    a ← _calculate_angle (_get_point keypoints "left_shoulder")
                         (_get_point keypoints "left_hip")
                         (_get_point keypoints "left_knee");
    let angles := <["left_hip" := a]> angles in
    a ← _calculate_angle (_get_point keypoints "right_shoulder")
                         (_get_point keypoints "right_hip")
                         (_get_point keypoints "right_knee");
    let angles := <["right_hip" := a]> angles in
    a ← _calculate_angle (_get_point keypoints "left_hip")
                         (_get_point keypoints "left_knee")
                         (_get_point keypoints "left_ankle");
    let angles := <["left_knee" := a]> angles in
    a ← _calculate_angle (_get_point keypoints "right_hip")
                         (_get_point keypoints "right_knee")
                         (_get_point keypoints "right_ankle");
    let angles := <["right_knee" := a]> angles in
    let left_shoulder := _get_point keypoints "left_shoulder" in
    let left_hip := _get_point keypoints "left_hip" in
    match left_shoulder, left_hip with
    | Some _, Some lh =>
        let vertical_point := Point (px lh) (py lh - 100) (Some 1) in
        a ← _calculate_angle (Some vertical_point) left_hip left_shoulder;
        Ok (<["torso_vertical" := a]> angles)
    | _, _ => Ok angles
    end.

(** ** [_detect_exercise_type] *)

(** A [return] in the middle of a function: the first rule that yields a
    value decides, the later ones are not looked at. *)
Definition or_else {A : Type} (first : option A) (rest : option A) : option A :=
  match first with
  | Some a => Some a
  | None => rest
  end.

Definition _detect_exercise_type (keypoints : list keypoint) (angles : angle_map)
  : option string :=
  let left_shoulder := _get_point keypoints "left_shoulder" in
  let right_shoulder := _get_point keypoints "right_shoulder" in
  let left_hip := _get_point keypoints "left_hip" in
  let right_hip := _get_point keypoints "right_hip" in
  let left_knee := _get_point keypoints "left_knee" in
  let right_knee := _get_point keypoints "right_knee" in
  match left_shoulder, right_shoulder, left_hip, right_hip with
  | Some ls, Some rs, Some lh, Some rh =>
      let shoulder_y := (py ls + py rs) / 2 in
      let hip_y := (py lh + py rh) / 2 in
      let torso_vertical_dist := Rabs (shoulder_y - hip_y) in
      or_else
        (if decide (torso_vertical_dist < 30) then
           let left_elbow := dict_get angles "left_elbow" in
           let right_elbow := dict_get angles "right_elbow" in
           if_both left_elbow right_elbow
             (fun l r =>
                let avg_elbow_angle := (l + r) / 2 in
                if decide (avg_elbow_angle < 120) then Some "push_up"
                else Some "plank")
             None
         else None)
     (or_else
        (match left_knee, right_knee with
         | Some _, Some _ =>
             let left_knee_angle := dict_get angles "left_knee" in
             let right_knee_angle := dict_get angles "right_knee" in
             if_both left_knee_angle right_knee_angle
               (fun l r =>
                  let avg_knee_angle := (l + r) / 2 in
                  if decide (avg_knee_angle < 160) then Some "squat" else None)
               None
         | _, _ => None
         end)
        (let shoulder_width := Rabs (px ls - px rs) in
         let hip_width := Rabs (px lh - px rh) in
         if decide (shoulder_width > hip_width * 1.5) then Some "jumping_jack"
         else None))
  | _, _, _, _ => None
  end.

(** ** [_detect_exercise_stage] *)

Definition _detect_exercise_stage (exercise_type : string) (angles : angle_map) : string :=
  if decide (exercise_type = "push_up") then
    let left_elbow := dict_get_default angles "left_elbow" 180 in
    let right_elbow := dict_get_default angles "right_elbow" 180 in
    let avg_elbow_angle := if_both left_elbow right_elbow (fun l r => (l + r) / 2) 180 in
    if decide (avg_elbow_angle < 100) then "down"
    else if decide (avg_elbow_angle > 160) then "up"
    else "neutral"
  else if decide (exercise_type = "squat") then
    let left_knee := dict_get_default angles "left_knee" 180 in
    let right_knee := dict_get_default angles "right_knee" 180 in
    let avg_knee_angle := if_both left_knee right_knee (fun l r => (l + r) / 2) 180 in
    if decide (avg_knee_angle < 120) then "down"
    else if decide (avg_knee_angle > 160) then "up"
    else "neutral"
  else if decide (exercise_type = "jumping_jack") then
    let left_shoulder := dict_get_default angles "left_shoulder" 0 in
    let right_shoulder := dict_get_default angles "right_shoulder" 0 in
    if_both left_shoulder right_shoulder
      (fun l r =>
         let avg_shoulder_angle := (l + r) / 2 in
         if decide (avg_shoulder_angle > 80) then "up"
         else if decide (avg_shoulder_angle < 30) then "down"
         else "neutral")
      "neutral"
  else "neutral".

(** ** The scoring rule sets *)

(** The pair [(score, feedback)] that every analysis function builds up;
    [penalize msg p] is [feedback.append(msg); score -= p]. *)
Definition penalize (msg : string) (p : R) (st : R * list string) : R * list string :=
  (st.1 - p, st.2 ++ [msg]).

(** The end of every analysis function: the affirmative message when the
    feedback is empty, and the score brought into [0, 1]. *)
Definition finish (affirmative : string) (st : R * list string) : R * list string :=
  let feedback := if decide (st.2 = []) then st.2 ++ [affirmative] else st.2 in
  let score := py_max 0.0 (py_min 1.0 st.1) in
  (score, feedback).

Definition _analyze_push_up (keypoints : list keypoint) (angles : angle_map)
  : result (R * list string) :=
  let st : R * list string := (1.0, []) in
  let left_shoulder := _get_point keypoints "left_shoulder" in
  let right_shoulder := _get_point keypoints "right_shoulder" in
  let left_hip := _get_point keypoints "left_hip" in
  let right_hip := _get_point keypoints "right_hip" in
  let left_ankle := _get_point keypoints "left_ankle" in
  let right_ankle := _get_point keypoints "right_ankle" in
  let st :=
    match left_shoulder, right_shoulder, left_hip, right_hip with
    | Some ls, Some rs, Some lh, Some rh =>
        let shoulder_y := (py ls + py rs) / 2 in
        let hip_y := (py lh + py rh) / 2 in
        if decide (Rabs (shoulder_y - hip_y) > 30) then
          if decide (hip_y < shoulder_y - 20) then
            penalize "Lower your hips - maintain a straight line from head to heels" 0.25 st
          else if decide (hip_y > shoulder_y + 20) then
            penalize "Raise your hips - avoid sagging in the middle" 0.25 st
          else st
        else st
    | _, _, _, _ => st
    end in
  let left_elbow := dict_get angles "left_elbow" in
  let right_elbow := dict_get angles "right_elbow" in
  let st :=
    if_both left_elbow right_elbow
      (fun l r =>
         let avg_elbow_angle := (l + r) / 2 in
         let stage := _detect_exercise_stage "push_up" angles in
         if decide (stage = "down") then
           if decide (avg_elbow_angle < 70) then
             penalize "You're going too deep - aim for 90° at the elbow" 0.15 st
           else if decide (avg_elbow_angle > 110) then
             penalize "Go lower - aim for 90° at the elbow" 0.2 st
           else st
         else if decide (stage = "up") then
           if decide (avg_elbow_angle < 160) then
             penalize "Fully extend your arms at the top of the push-up" 0.15 st
           else st
         else st)
      st in
  st ← match left_ankle, right_ankle with
       | Some la, Some ra =>
           ankle_dist ← math_sqrt ((px la - px ra) ^ 2 + (py la - py ra) ^ 2);
           if decide (ankle_dist > 50) then
             Ok (penalize "Keep your legs together for better stability" 0.1 st)
           else Ok st
       | _, _ => Ok st
       end;
  Ok (finish "Great push-up form! Maintain a straight body line." st).

Definition _analyze_squat (keypoints : list keypoint) (angles : angle_map)
  : result (R * list string) :=
  let st : R * list string := (1.0, []) in
  let left_hip := _get_point keypoints "left_hip" in
  let right_hip := _get_point keypoints "right_hip" in
  let left_knee := _get_point keypoints "left_knee" in
  let right_knee := _get_point keypoints "right_knee" in
  let left_ankle := _get_point keypoints "left_ankle" in
  let right_ankle := _get_point keypoints "right_ankle" in
  let left_knee_angle := dict_get angles "left_knee" in
  let right_knee_angle := dict_get angles "right_knee" in
  let st :=
    if_both left_knee_angle right_knee_angle
      (fun l r =>
         let avg_knee_angle := (l + r) / 2 in
         let stage := _detect_exercise_stage "squat" angles in
         if decide (stage = "down") then
           if decide (avg_knee_angle > 140) then
             penalize "Squat deeper - aim for thighs parallel to the ground" 0.25 st
           else if decide (avg_knee_angle < 70) then
             penalize "You're squatting too deep - be careful with your knees" 0.15 st
           else st
         else st)
      st in
  let st :=
    match left_knee, left_ankle, right_knee, right_ankle with
    | Some lk, Some la, Some rk, Some ra =>
        let left_knee_past_toes := bool_decide (px lk > px la + 30) in
        let right_knee_past_toes := bool_decide (px rk > px ra + 30) in
        if left_knee_past_toes || right_knee_past_toes then
          penalize "Keep your knees behind your toes" 0.2 st
        else st
    | _, _, _, _ => st
    end in
  let torso_vertical := dict_get angles "torso_vertical" in
  let st :=
    match torso_vertical with
    | Some tv =>
        if truthy torso_vertical then
          if decide (tv > 45) then
            penalize "Keep your chest up and back more upright" 0.15 st
          else st
        else st
    | None => st
    end in
  let st :=
    match left_ankle, right_ankle with
    | Some la, Some ra =>
        let ankle_dist := Rabs (px la - px ra) in
        let hip_width :=
          match left_hip, right_hip with
          | Some lh, Some rh => Rabs (px lh - px rh)
          | _, _ => 100
          end in
        if decide (ankle_dist < hip_width * 0.8) then
          penalize "Widen your stance to shoulder width or slightly wider" 0.1 st
        else if decide (ankle_dist > hip_width * 1.8) then
          penalize "Narrow your stance slightly" 0.1 st
        else st
    | _, _ => st
    end in
  let st :=
    match left_knee, right_knee, left_hip, right_hip with
    | Some lk, Some rk, Some lh, Some rh =>
        let knee_width := Rabs (px lk - px rk) in
        let hip_width := Rabs (px lh - px rh) in
        if decide (knee_width < hip_width * 0.6) then
          penalize "Keep your knees in line with your toes - don't let them cave inward" 0.15 st
        else st
    | _, _, _, _ => st
    end in
  Ok (finish "Excellent squat form! Keep your weight in your heels." st).

Definition _analyze_plank (keypoints : list keypoint) (angles : angle_map)
  : result (R * list string) :=
  let st : R * list string := (1.0, []) in
  let left_shoulder := _get_point keypoints "left_shoulder" in
  let right_shoulder := _get_point keypoints "right_shoulder" in
  let left_hip := _get_point keypoints "left_hip" in
  let right_hip := _get_point keypoints "right_hip" in
  let left_ankle := _get_point keypoints "left_ankle" in
  let right_ankle := _get_point keypoints "right_ankle" in
  let left_elbow := _get_point keypoints "left_elbow" in
  let right_elbow := _get_point keypoints "right_elbow" in
  let st :=
    match left_shoulder, right_shoulder, left_hip, right_hip with
    | Some ls, Some rs, Some lh, Some rh =>
        let shoulder_y := (py ls + py rs) / 2 in
        let hip_y := (py lh + py rh) / 2 in
        if decide (Rabs (shoulder_y - hip_y) > 30) then
          if decide (hip_y < shoulder_y - 20) then
            penalize "Lower your hips - your body should form a straight line" 0.25 st
          else if decide (hip_y > shoulder_y + 20) then
            penalize "Raise your hips - don't let them sag toward the ground" 0.25 st
          else st
        else st
    | _, _, _, _ => st
    end in
  let st :=
    match left_ankle, right_ankle, left_hip, right_hip with
    | Some la, Some ra, Some lh, Some rh =>
        let ankle_y := (py la + py ra) / 2 in
        let hip_y := (py lh + py rh) / 2 in
        if decide (Rabs (ankle_y - hip_y) > 30) then
          penalize "Keep your legs straight and in line with your body" 0.15 st
        else st
    | _, _, _, _ => st
    end in
  st ← match left_elbow, right_elbow, left_shoulder, right_shoulder with
       | Some le, Some re, Some ls, Some rs =>
           left_dist ← math_sqrt ((px le - px ls) ^ 2 + (py le - py ls) ^ 2);
           right_dist ← math_sqrt ((px re - px rs) ^ 2 + (py re - py rs) ^ 2);
           if bool_decide (left_dist > 40) || bool_decide (right_dist > 40) then
             Ok (penalize "Position your elbows directly under your shoulders" 0.15 st)
           else Ok st
       | _, _, _, _ => Ok st
       end;
  Ok (finish "Great plank form! Keep your core engaged and breathe steadily." st).

Definition _analyze_jumping_jack (keypoints : list keypoint) (angles : angle_map)
  : result (R * list string) :=
  let st : R * list string := (1.0, []) in
  let left_shoulder := _get_point keypoints "left_shoulder" in
  let right_shoulder := _get_point keypoints "right_shoulder" in
  let left_hip := _get_point keypoints "left_hip" in
  let right_hip := _get_point keypoints "right_hip" in
  let left_ankle := _get_point keypoints "left_ankle" in
  let right_ankle := _get_point keypoints "right_ankle" in
  let left_wrist := _get_point keypoints "left_wrist" in
  let right_wrist := _get_point keypoints "right_wrist" in
  match left_shoulder, right_shoulder, left_hip, right_hip,
        left_ankle, right_ankle, left_wrist, right_wrist with
  | Some ls, Some rs, Some lh, Some rh, Some la, Some ra, Some lw, Some rw =>
      let stage := _detect_exercise_stage "jumping_jack" angles in
      let st :=
        if decide (stage = "up") then
          let left_arm_raised := bool_decide (py lw < py ls) in
          let right_arm_raised := bool_decide (py rw < py rs) in
          let st :=
            if negb (left_arm_raised && right_arm_raised) then
              penalize "Raise your arms fully above your head" 0.2 st
            else st in
          let ankle_distance := Rabs (px la - px ra) in
          let hip_distance := Rabs (px lh - px rh) in
          if decide (ankle_distance < hip_distance) then
            penalize "Jump wider with your feet" 0.15 st
          else st
        else if decide (stage = "down") then
          let left_arm_down := bool_decide (py lw > py lh) in
          let right_arm_down := bool_decide (py rw > py rh) in
          let st :=
            if negb (left_arm_down && right_arm_down) then
              penalize "Bring your arms fully down by your sides" 0.15 st
            else st in
          let ankle_distance := Rabs (px la - px ra) in
          if decide (ankle_distance > 30) then
            penalize "Bring your feet together between jumps" 0.15 st
          else st
        else st in
      let st :=
        if decide (Rabs (py lh - py rh) > 20) then
          penalize "Keep your hips level during the exercise" 0.1 st
        else st in
      Ok (finish (if decide (stage = "up")
                  then "Great form! Full extension of arms and legs."
                  else "Good control on the landing! Maintain rhythm.") st)
  | _, _, _, _, _, _, _, _ =>
      Ok (0.5, ["Cannot fully analyze jumping jack - not all key points detected"])
  end.

(** ** [analyze_exercise] *)

(** [self.exercise_types] *)
Definition exercise_types
  : gmap string (list keypoint → angle_map → result (R * list string)) :=
  list_to_map
    [ ("push_up", _analyze_push_up);
      ("squat", _analyze_squat);
      ("plank", _analyze_plank);
      ("jumping_jack", _analyze_jumping_jack) ].

(** The dictionary that [analyze_exercise] returns; the key ["stage"] is
    only set on one path. *)
Record response : Type := Response {
  exercise_detected : bool;
  exercise_type : string;
  form_score : R;
  feedback : list string;
  joint_angles : angle_map;
  stage : option string
}.

(** Truth value of an [Optional[str]]: [None] and the empty string are
    false. *)
Definition truthy_str (o : option string) : bool :=
  match o with
  | Some s => bool_decide (s ≠ "")
  | None => false
  end.

Definition analyze_exercise (keypoints : list keypoint) (exercise_type : option string)
  : result response :=
  angles ← _calculate_joint_angles keypoints;
  let detected_type := exercise_type in
  let detected_type :=
    if negb (truthy_str detected_type) then _detect_exercise_type keypoints angles
    else detected_type in
  let detected := bool_decide (detected_type ≠ None) in
  let type_name :=
    if truthy_str detected_type then default "" detected_type else "unknown" in
  match detected_type ≫= (exercise_types !!.) with
  | Some analysis =>
      '(score, messages) ← analysis keypoints angles;
      Ok {| exercise_detected := detected;
            exercise_type := type_name;
            form_score := score;
            feedback := messages;
            joint_angles := angles;
            stage := Some (_detect_exercise_stage (default "" detected_type) angles) |}
  | None =>
      Ok {| exercise_detected := detected;
            exercise_type := type_name;
            form_score := 0.0;
            feedback := ["No valid exercise detected"];
            joint_angles := angles;
            stage := None |}
  end.

(** * The same class over IEEE binary64

    The definitions above idealise Python's floats as real numbers.  The
    module [B64] embeds the same source once more over the kernel's binary64
    floats, so that rounding, underflow, infinities, NaN and the
    [OverflowError] of [** 2] are those of the interpreter.  It is the
    model of the statements that depend on them.

    - [+], [-], [*], [/], [abs], comparisons and [math.sqrt] are the IEEE
      operations; [x ** 2] is the correctly rounded square, with CPython's
      [OverflowError] when a finite [x] gives an infinite result.
    - [math.acos] belongs to the C library: the model is parametrised by
      that function, of which nothing is assumed.
    - The numbers of a keypoint are floats (a JSON integer is read as the
      float of the same value). *)

Module B64.

Import Floats.
Local Open Scope float_scope.
#[local] Set Warnings "-inexact-float".

(** [b > a] *)
Definition gtb (b a : float) : bool := a <? b.
Infix ">?" := gtb (at level 70, no associativity) : float_scope.

(** ** Numbers *)

(** [x ** 2] ([float_pow]): the result of a NaN or an infinity is returned
    as it is; an infinite result of a finite [x] is an [OverflowError]. *)
Definition py_pow2 (x : float) : result float :=
  let r := x * x in
  if is_infinity r && is_finite x then Raise OverflowError else Ok r.

(** [x / y] ([float_div]). *)
Definition py_div (x y : float) : result float :=
  if y =? 0 then Raise ZeroDivisionError else Ok (x / y).

(** The wrapper [math_1] of the module [math], for a function that cannot
    overflow: a NaN result of an argument that is no NaN, and an infinite
    result of a finite argument, are a [ValueError]. *)
Definition math_1 (f : float → float) (x : float) : result float :=
  let r := f x in
  if is_nan r && negb (is_nan x) then Raise ValueError
  else if is_infinity r && is_finite x then Raise ValueError
  else Ok r.

Definition math_sqrt : float → result float := math_1 PrimFloat.sqrt.

(** [Py_MATH_PI], and [math.degrees]: the product with the constant
    [180.0 / Py_MATH_PI]. *)
Definition pi : float := 0x1.921fb54442d18p+1.
Definition math_degrees (x : float) : float := x * (180 / pi).

(** The builtins [min(a, b)] and [max(a, b)]: the first argument is kept
    unless the second is strictly smaller (larger); a NaN in second
    position is never taken. *)
Definition py_min (a b : float) : float := if b <? a then b else a.
Definition py_max (a b : float) : float := if b >? a then b else a.

(** Truth value of an [Optional[float]]: [None], [0.0] and [-0.0] are
    false, a NaN is true. *)
Definition truthy (o : option float) : bool :=
  match o with
  | Some x => negb (x =? 0)
  | None => false
  end.

(** [f(a, b) if a and b else g], for two optional floats. *)
Definition if_both {A : Type} (a b : option float) (f : float → float → A) (g : A) : A :=
  match a, b with
  | Some x, Some y => if truthy a && truthy b then f x y else g
  | _, _ => g
  end.

(** ** Data model *)

Record keypoint : Type := Keypoint {
  kp_x : option float;
  kp_y : option float;
  kp_score : option float
}.

Record point : Type := Point {
  px : float;
  py : float;
  pscore : option float
}.

Abbreviation angle_map := (gmap string (option float)).

Definition dict_get (angles : angle_map) (k : string) : option float :=
  match angles !! k with
  | Some v => v
  | None => None
  end.

Definition dict_get_default (angles : angle_map) (k : string) (d : float)
  : option float :=
  match angles !! k with
  | Some v => v
  | None => Some d
  end.

(** ** [_get_point] *)

Definition _get_point (keypoints : list keypoint) (joint_name : string) : option point :=
  match joint_indices !! joint_name with
  | None => None
  | Some index =>
      if decide (length keypoints ≤ index)%nat then None
      else
        match keypoints !! index with
        | None => None
        | Some kp =>
            match kp_x kp, kp_y kp with
            | Some x, Some y => Some (Point x y (kp_score kp))
            | _, _ => None
            end
        end
  end.

(** ** [_calculate_angle] *)

Definition min_confidence : float := 0.2.

Definition low_confidence (p : point) : bool :=
  match pscore p with
  | Some s => s <? min_confidence
  | None => false
  end.

Section libm.

(** The C library's [acos]. *)
Variable acos : float → float.

Definition math_acos : float → result float := math_1 acos.

Definition _calculate_angle (point1 point2 point3 : option point)
  : result (option float) :=
  match point1, point2, point3 with
  | Some p1, Some p2, Some p3 =>
      if low_confidence p1 || low_confidence p2 || low_confidence p3 then Ok None
      else
        let vector1 := (px p1 - px p2, py p1 - py p2) in
        let vector2 := (px p3 - px p2, py p3 - py p2) in
        let dot_product := vector1.1 * vector2.1 + vector1.2 * vector2.2 in
        a ← py_pow2 vector1.1;
        b ← py_pow2 vector1.2;
        magnitude1 ← math_sqrt (a + b);
        a ← py_pow2 vector2.1;
        b ← py_pow2 vector2.2;
        magnitude2 ← math_sqrt (a + b);
        if magnitude1 * magnitude2 =? 0 then Ok None
        else
          cosine ← py_div dot_product (magnitude1 * magnitude2);
          let cosine := py_max (-1) (py_min 1 cosine) in
          angle_radians ← math_acos cosine;
          let angle_degrees := math_degrees angle_radians in
          Ok (Some angle_degrees)
  | _, _, _ => Ok None
  end.

(** ** [_calculate_joint_angles] *)

Definition _calculate_joint_angles (keypoints : list keypoint) : result angle_map :=
  let angles : angle_map := ∅ in
  if bool_decide (keypoints = []) || bool_decide (length keypoints < 17)%nat
  then Ok angles
  else
    a ← _calculate_angle (_get_point keypoints "left_shoulder")
                         (_get_point keypoints "left_elbow")
                         (_get_point keypoints "left_wrist");
    let angles := <["left_elbow" := a]> angles in
    a ← _calculate_angle (_get_point keypoints "right_shoulder")
                         (_get_point keypoints "right_elbow")
                         (_get_point keypoints "right_wrist");
    let angles := <["right_elbow" := a]> angles in
    a ← _calculate_angle (_get_point keypoints "left_elbow")
                         (_get_point keypoints "left_shoulder")
                         (_get_point keypoints "left_hip");
    let angles := <["left_shoulder" := a]> angles in
    a ← _calculate_angle (_get_point keypoints "right_elbow")
                         (_get_point keypoints "right_shoulder")
                         (_get_point keypoints "right_hip");
    let angles := <["right_shoulder" := a]> angles in
    a ← _calculate_angle (_get_point keypoints "left_shoulder")
                         (_get_point keypoints "left_hip")
                         (_get_point keypoints "left_knee");
    let angles := <["left_hip" := a]> angles in
    a ← _calculate_angle (_get_point keypoints "right_shoulder")
                         (_get_point keypoints "right_hip")
                         (_get_point keypoints "right_knee");
    let angles := <["right_hip" := a]> angles in
    a ← _calculate_angle (_get_point keypoints "left_hip")
                         (_get_point keypoints "left_knee")
                         (_get_point keypoints "left_ankle");
    let angles := <["left_knee" := a]> angles in
    a ← _calculate_angle (_get_point keypoints "right_hip")
                         (_get_point keypoints "right_knee")
                         (_get_point keypoints "right_ankle");
    let angles := <["right_knee" := a]> angles in
    let left_shoulder := _get_point keypoints "left_shoulder" in
    let left_hip := _get_point keypoints "left_hip" in
    match left_shoulder, left_hip with
    | Some _, Some lh =>
        let vertical_point := Point (px lh) (py lh - 100) (Some 1) in
        a ← _calculate_angle (Some vertical_point) left_hip left_shoulder;
        Ok (<["torso_vertical" := a]> angles)
    | _, _ => Ok angles
    end.

End libm.

(** ** [_detect_exercise_type] *)

Definition _detect_exercise_type (keypoints : list keypoint) (angles : angle_map)
  : option string :=
  let left_shoulder := _get_point keypoints "left_shoulder" in
  let right_shoulder := _get_point keypoints "right_shoulder" in
  let left_hip := _get_point keypoints "left_hip" in
  let right_hip := _get_point keypoints "right_hip" in
  let left_knee := _get_point keypoints "left_knee" in
  let right_knee := _get_point keypoints "right_knee" in
  match left_shoulder, right_shoulder, left_hip, right_hip with
  | Some ls, Some rs, Some lh, Some rh =>
      let shoulder_y := (py ls + py rs) / 2 in
      let hip_y := (py lh + py rh) / 2 in
      let torso_vertical_dist := abs (shoulder_y - hip_y) in
      or_else
        (if torso_vertical_dist <? 30 then
           let left_elbow := dict_get angles "left_elbow" in
           let right_elbow := dict_get angles "right_elbow" in
           if_both left_elbow right_elbow
             (fun l r =>
                let avg_elbow_angle := (l + r) / 2 in
                if avg_elbow_angle <? 120 then Some "push_up"
                else Some "plank")
             None
         else None)
     (or_else
        (match left_knee, right_knee with
         | Some _, Some _ =>
             let left_knee_angle := dict_get angles "left_knee" in
             let right_knee_angle := dict_get angles "right_knee" in
             if_both left_knee_angle right_knee_angle
               (fun l r =>
                  let avg_knee_angle := (l + r) / 2 in
                  if avg_knee_angle <? 160 then Some "squat" else None)
               None
         | _, _ => None
         end)
        (let shoulder_width := abs (px ls - px rs) in
         let hip_width := abs (px lh - px rh) in
         if shoulder_width >? hip_width * 1.5 then Some "jumping_jack"
         else None))
  | _, _, _, _ => None
  end.

(** ** [_detect_exercise_stage] *)

Definition _detect_exercise_stage (exercise_type : string) (angles : angle_map) : string :=
  if decide (exercise_type = "push_up") then
    let left_elbow := dict_get_default angles "left_elbow" 180 in
    let right_elbow := dict_get_default angles "right_elbow" 180 in
    let avg_elbow_angle := if_both left_elbow right_elbow (fun l r => (l + r) / 2) 180 in
    if avg_elbow_angle <? 100 then "down"
    else if avg_elbow_angle >? 160 then "up"
    else "neutral"
  else if decide (exercise_type = "squat") then
    let left_knee := dict_get_default angles "left_knee" 180 in
    let right_knee := dict_get_default angles "right_knee" 180 in
    let avg_knee_angle := if_both left_knee right_knee (fun l r => (l + r) / 2) 180 in
    if avg_knee_angle <? 120 then "down"
    else if avg_knee_angle >? 160 then "up"
    else "neutral"
  else if decide (exercise_type = "jumping_jack") then
    let left_shoulder := dict_get_default angles "left_shoulder" 0 in
    let right_shoulder := dict_get_default angles "right_shoulder" 0 in
    if_both left_shoulder right_shoulder
      (fun l r =>
         let avg_shoulder_angle := (l + r) / 2 in
         if avg_shoulder_angle >? 80 then "up"
         else if avg_shoulder_angle <? 30 then "down"
         else "neutral")
      "neutral"
  else "neutral".

(** ** The scoring rule sets *)

Definition penalize (msg : string) (p : float) (st : float * list string)
  : float * list string :=
  (st.1 - p, st.2 ++ [msg]).

Definition finish (affirmative : string) (st : float * list string)
  : float * list string :=
  let feedback := if decide (st.2 = []) then st.2 ++ [affirmative] else st.2 in
  let score := py_max 0.0 (py_min 1.0 st.1) in
  (score, feedback).

Definition _analyze_push_up (keypoints : list keypoint) (angles : angle_map)
  : result (float * list string) :=
  let st : float * list string := (1.0, []) in
  let left_shoulder := _get_point keypoints "left_shoulder" in
  let right_shoulder := _get_point keypoints "right_shoulder" in
  let left_hip := _get_point keypoints "left_hip" in
  let right_hip := _get_point keypoints "right_hip" in
  let left_ankle := _get_point keypoints "left_ankle" in
  let right_ankle := _get_point keypoints "right_ankle" in
  let st :=
    match left_shoulder, right_shoulder, left_hip, right_hip with
    | Some ls, Some rs, Some lh, Some rh =>
        let shoulder_y := (py ls + py rs) / 2 in
        let hip_y := (py lh + py rh) / 2 in
        if abs (shoulder_y - hip_y) >? 30 then
          if hip_y <? shoulder_y - 20 then
            penalize "Lower your hips - maintain a straight line from head to heels" 0.25 st
          else if hip_y >? shoulder_y + 20 then
            penalize "Raise your hips - avoid sagging in the middle" 0.25 st
          else st
        else st
    | _, _, _, _ => st
    end in
  let left_elbow := dict_get angles "left_elbow" in
  let right_elbow := dict_get angles "right_elbow" in
  let st :=
    if_both left_elbow right_elbow
      (fun l r =>
         let avg_elbow_angle := (l + r) / 2 in
         let stage := _detect_exercise_stage "push_up" angles in
         if decide (stage = "down") then
           if avg_elbow_angle <? 70 then
             penalize "You're going too deep - aim for 90° at the elbow" 0.15 st
           else if avg_elbow_angle >? 110 then
             penalize "Go lower - aim for 90° at the elbow" 0.2 st
           else st
         else if decide (stage = "up") then
           if avg_elbow_angle <? 160 then
             penalize "Fully extend your arms at the top of the push-up" 0.15 st
           else st
         else st)
      st in
  st ← match left_ankle, right_ankle with
       | Some la, Some ra =>
           a ← py_pow2 (px la - px ra);
           b ← py_pow2 (py la - py ra);
           ankle_dist ← math_sqrt (a + b);
           if ankle_dist >? 50 then
             Ok (penalize "Keep your legs together for better stability" 0.1 st)
           else Ok st
       | _, _ => Ok st
       end;
  Ok (finish "Great push-up form! Maintain a straight body line." st).

Definition _analyze_squat (keypoints : list keypoint) (angles : angle_map)
  : result (float * list string) :=
  let st : float * list string := (1.0, []) in
  let left_hip := _get_point keypoints "left_hip" in
  let right_hip := _get_point keypoints "right_hip" in
  let left_knee := _get_point keypoints "left_knee" in
  let right_knee := _get_point keypoints "right_knee" in
  let left_ankle := _get_point keypoints "left_ankle" in
  let right_ankle := _get_point keypoints "right_ankle" in
  let left_knee_angle := dict_get angles "left_knee" in
  let right_knee_angle := dict_get angles "right_knee" in
  let st :=
    if_both left_knee_angle right_knee_angle
      (fun l r =>
         let avg_knee_angle := (l + r) / 2 in
         let stage := _detect_exercise_stage "squat" angles in
         if decide (stage = "down") then
           if avg_knee_angle >? 140 then
             penalize "Squat deeper - aim for thighs parallel to the ground" 0.25 st
           else if avg_knee_angle <? 70 then
             penalize "You're squatting too deep - be careful with your knees" 0.15 st
           else st
         else st)
      st in
  let st :=
    match left_knee, left_ankle, right_knee, right_ankle with
    | Some lk, Some la, Some rk, Some ra =>
        let left_knee_past_toes := px lk >? px la + 30 in
        let right_knee_past_toes := px rk >? px ra + 30 in
        if left_knee_past_toes || right_knee_past_toes then
          penalize "Keep your knees behind your toes" 0.2 st
        else st
    | _, _, _, _ => st
    end in
  let torso_vertical := dict_get angles "torso_vertical" in
  let st :=
    match torso_vertical with
    | Some tv =>
        if truthy torso_vertical then
          if tv >? 45 then
            penalize "Keep your chest up and back more upright" 0.15 st
          else st
        else st
    | None => st
    end in
  let st :=
    match left_ankle, right_ankle with
    | Some la, Some ra =>
        let ankle_dist := abs (px la - px ra) in
        let hip_width :=
          match left_hip, right_hip with
          | Some lh, Some rh => abs (px lh - px rh)
          | _, _ => 100
          end in
        if ankle_dist <? hip_width * 0.8 then
          penalize "Widen your stance to shoulder width or slightly wider" 0.1 st
        else if ankle_dist >? hip_width * 1.8 then
          penalize "Narrow your stance slightly" 0.1 st
        else st
    | _, _ => st
    end in
  let st :=
    match left_knee, right_knee, left_hip, right_hip with
    | Some lk, Some rk, Some lh, Some rh =>
        let knee_width := abs (px lk - px rk) in
        let hip_width := abs (px lh - px rh) in
        if knee_width <? hip_width * 0.6 then
          penalize "Keep your knees in line with your toes - don't let them cave inward" 0.15 st
        else st
    | _, _, _, _ => st
    end in
  Ok (finish "Excellent squat form! Keep your weight in your heels." st).

Definition _analyze_plank (keypoints : list keypoint) (angles : angle_map)
  : result (float * list string) :=
  let st : float * list string := (1.0, []) in
  let left_shoulder := _get_point keypoints "left_shoulder" in
  let right_shoulder := _get_point keypoints "right_shoulder" in
  let left_hip := _get_point keypoints "left_hip" in
  let right_hip := _get_point keypoints "right_hip" in
  let left_ankle := _get_point keypoints "left_ankle" in
  let right_ankle := _get_point keypoints "right_ankle" in
  let left_elbow := _get_point keypoints "left_elbow" in
  let right_elbow := _get_point keypoints "right_elbow" in
  let st :=
    match left_shoulder, right_shoulder, left_hip, right_hip with
    | Some ls, Some rs, Some lh, Some rh =>
        let shoulder_y := (py ls + py rs) / 2 in
        let hip_y := (py lh + py rh) / 2 in
        if abs (shoulder_y - hip_y) >? 30 then
          if hip_y <? shoulder_y - 20 then
            penalize "Lower your hips - your body should form a straight line" 0.25 st
          else if hip_y >? shoulder_y + 20 then
            penalize "Raise your hips - don't let them sag toward the ground" 0.25 st
          else st
        else st
    | _, _, _, _ => st
    end in
  let st :=
    match left_ankle, right_ankle, left_hip, right_hip with
    | Some la, Some ra, Some lh, Some rh =>
        let ankle_y := (py la + py ra) / 2 in
        let hip_y := (py lh + py rh) / 2 in
        if abs (ankle_y - hip_y) >? 30 then
          penalize "Keep your legs straight and in line with your body" 0.15 st
        else st
    | _, _, _, _ => st
    end in
  st ← match left_elbow, right_elbow, left_shoulder, right_shoulder with
       | Some le, Some re, Some ls, Some rs =>
           a ← py_pow2 (px le - px ls);
           b ← py_pow2 (py le - py ls);
           left_dist ← math_sqrt (a + b);
           a ← py_pow2 (px re - px rs);
           b ← py_pow2 (py re - py rs);
           right_dist ← math_sqrt (a + b);
           if (left_dist >? 40) || (right_dist >? 40) then
             Ok (penalize "Position your elbows directly under your shoulders" 0.15 st)
           else Ok st
       | _, _, _, _ => Ok st
       end;
  Ok (finish "Great plank form! Keep your core engaged and breathe steadily." st).

Definition _analyze_jumping_jack (keypoints : list keypoint) (angles : angle_map)
  : result (float * list string) :=
  let st : float * list string := (1.0, []) in
  let left_shoulder := _get_point keypoints "left_shoulder" in
  let right_shoulder := _get_point keypoints "right_shoulder" in
  let left_hip := _get_point keypoints "left_hip" in
  let right_hip := _get_point keypoints "right_hip" in
  let left_ankle := _get_point keypoints "left_ankle" in
  let right_ankle := _get_point keypoints "right_ankle" in
  let left_wrist := _get_point keypoints "left_wrist" in
  let right_wrist := _get_point keypoints "right_wrist" in
  match left_shoulder, right_shoulder, left_hip, right_hip,
        left_ankle, right_ankle, left_wrist, right_wrist with
  | Some ls, Some rs, Some lh, Some rh, Some la, Some ra, Some lw, Some rw =>
      let stage := _detect_exercise_stage "jumping_jack" angles in
      let st :=
        if decide (stage = "up") then
          let left_arm_raised := py lw <? py ls in
          let right_arm_raised := py rw <? py rs in
          let st :=
            if negb (left_arm_raised && right_arm_raised) then
              penalize "Raise your arms fully above your head" 0.2 st
            else st in
          let ankle_distance := abs (px la - px ra) in
          let hip_distance := abs (px lh - px rh) in
          if ankle_distance <? hip_distance then
            penalize "Jump wider with your feet" 0.15 st
          else st
        else if decide (stage = "down") then
          let left_arm_down := py lw >? py lh in
          let right_arm_down := py rw >? py rh in
          let st :=
            if negb (left_arm_down && right_arm_down) then
              penalize "Bring your arms fully down by your sides" 0.15 st
            else st in
          let ankle_distance := abs (px la - px ra) in
          if ankle_distance >? 30 then
            penalize "Bring your feet together between jumps" 0.15 st
          else st
        else st in
      let st :=
        if abs (py lh - py rh) >? 20 then
          penalize "Keep your hips level during the exercise" 0.1 st
        else st in
      Ok (finish (if decide (stage = "up")
                  then "Great form! Full extension of arms and legs."
                  else "Good control on the landing! Maintain rhythm.") st)
  | _, _, _, _, _, _, _, _ =>
      Ok (0.5, ["Cannot fully analyze jumping jack - not all key points detected"])
  end.

(** ** [analyze_exercise] *)

Definition exercise_types
  : gmap string (list keypoint → angle_map → result (float * list string)) :=
  list_to_map
    [ ("push_up", _analyze_push_up);
      ("squat", _analyze_squat);
      ("plank", _analyze_plank);
      ("jumping_jack", _analyze_jumping_jack) ].

Record response : Type := Response {
  exercise_detected : bool;
  exercise_type : string;
  form_score : float;
  feedback : list string;
  joint_angles : angle_map;
  stage : option string
}.

Definition analyze_exercise (acos : float → float) (keypoints : list keypoint)
    (hint : option string) : result response :=
  angles ← _calculate_joint_angles acos keypoints;
  let detected_type := hint in
  let detected_type :=
    if negb (truthy_str detected_type) then _detect_exercise_type keypoints angles
    else detected_type in
  let detected := bool_decide (detected_type ≠ None) in
  let type_name :=
    if truthy_str detected_type then default "" detected_type else "unknown" in
  match detected_type ≫= (exercise_types !!.) with
  | Some analysis =>
      '(score, messages) ← analysis keypoints angles;
      Ok {| exercise_detected := detected;
            exercise_type := type_name;
            form_score := score;
            feedback := messages;
            joint_angles := angles;
            stage := Some (_detect_exercise_stage (default "" detected_type) angles) |}
  | None =>
      Ok {| exercise_detected := detected;
            exercise_type := type_name;
            form_score := 0.0;
            feedback := ["No valid exercise detected"];
            joint_angles := angles;
            stage := None |}
  end.

End B64.

(** * Vocabulary of the specification *)

(** ** Angles (section 4.1) *)

(** The vector from [Q] to [P], the dot product and the magnitude. *)
Definition vec (P Q : point) : R * R := (px P - px Q, py P - py Q).
Definition dot (u w : R * R) : R := u.1 * w.1 + u.2 * w.2.
Definition magnitude (u : R * R) : R := sqrt (u.1 * u.1 + u.2 * u.2).

(** Clamping to an interval. *)
Definition clamp (lo hi x : R) : R := Rmax lo (Rmin hi x).

(** The confidence field is present and below the threshold. *)
Definition confidence_below (P : point) : Prop :=
  ∃ s, pscore P = Some s ∧ s < 0.2.

(** The angle at the vertex [V] between its neighbours [A] and [C], in
    degrees: the arccosine of the normalized dot product of [A - V] and
    [C - V], the cosine clamped to [-1, 1]. *)
Definition angle_at (A V C : point) : R :=
  acos (clamp (-1) 1 (dot (vec A V) (vec C V)
                      / (magnitude (vec A V) * magnitude (vec C V))))
  * 180 / PI.

(** The angle of three optional landmarks: absent when one of them is
    missing, has a low confidence, or coincides with the vertex. *)
Definition angle_value (p1 p2 p3 : option point) : option R :=
  match p1, p2, p3 with
  | Some A, Some V, Some C =>
      if low_confidence A || low_confidence V || low_confidence C then None
      else if decide (magnitude (vec A V) * magnitude (vec C V) = 0) then None
      else Some (angle_at A V C)
  | _, _, _ => None
  end.

(** The keypoint dictionary as a point, when it has both coordinates. *)
Definition to_point (kp : keypoint) : option point :=
  match kp_x kp, kp_y kp with
  | Some x, Some y => Some (Point x y (kp_score kp))
  | _, _ => None
  end.

(** The named angles and their triples (neighbour, vertex, neighbour). *)
Definition named_triples : list (string * (string * string * string)) :=
  [ ("left_elbow", ("left_shoulder", "left_elbow", "left_wrist"));
    ("right_elbow", ("right_shoulder", "right_elbow", "right_wrist"));
    ("left_shoulder", ("left_elbow", "left_shoulder", "left_hip"));
    ("right_shoulder", ("right_elbow", "right_shoulder", "right_hip"));
    ("left_hip", ("left_shoulder", "left_hip", "left_knee"));
    ("right_hip", ("right_shoulder", "right_hip", "right_knee"));
    ("left_knee", ("left_hip", "left_knee", "left_ankle"));
    ("right_knee", ("right_hip", "right_knee", "right_ankle")) ].

(** The angle dictionary of a frame of at least 17 keypoints. *)
Definition angles_of (kps : list keypoint) : angle_map :=
  let gp := _get_point kps in
  let named : angle_map :=
    <["right_knee" := angle_value (gp "right_hip") (gp "right_knee") (gp "right_ankle")]>
   (<["left_knee" := angle_value (gp "left_hip") (gp "left_knee") (gp "left_ankle")]>
   (<["right_hip" := angle_value (gp "right_shoulder") (gp "right_hip") (gp "right_knee")]>
   (<["left_hip" := angle_value (gp "left_shoulder") (gp "left_hip") (gp "left_knee")]>
   (<["right_shoulder" := angle_value (gp "right_elbow") (gp "right_shoulder") (gp "right_hip")]>
   (<["left_shoulder" := angle_value (gp "left_elbow") (gp "left_shoulder") (gp "left_hip")]>
   (<["right_elbow" := angle_value (gp "right_shoulder") (gp "right_elbow") (gp "right_wrist")]>
   (<["left_elbow" := angle_value (gp "left_shoulder") (gp "left_elbow") (gp "left_wrist")]>
    ∅))))))) in
  match gp "left_shoulder", gp "left_hip" with
  | Some ls, Some lh =>
      <["torso_vertical" :=
          angle_value (Some (Point (px lh) (py lh - 100) (Some 1))) (Some lh) (Some ls)]>
        named
  | _, _ => named
  end.

(** ** Sample frames *)

(** A keypoint with both coordinates and a confidence of 0.9. *)
Definition mk (x y : R) : keypoint := Keypoint (Some x) (Some y) (Some 0.9).

(** Thirteen keypoints (nose to right hip): shoulders 200 apart, hips 100
    apart, 200 below the shoulders. *)
Definition short_frame : list keypoint :=
  [ mk 200 50; mk 200 50; mk 200 50; mk 200 50; mk 200 50;
    mk 100 100; mk 300 100;
    mk 100 200; mk 300 200;
    mk 100 300; mk 300 300;
    mk 150 300; mk 250 300 ].

(** Seventeen keypoints, torso level, both forearms folded back onto the
    upper arms (wrist between elbow and shoulder), legs collapsed onto the
    hips. *)
Definition folded_arms_frame : list keypoint :=
  [ mk 50 (-20); mk 50 (-20); mk 50 (-20); mk 50 (-20); mk 50 (-20);
    mk 0 0; mk 100 0;
    mk 0 50; mk 100 50;
    mk 0 25; mk 100 25;
    mk 0 10; mk 100 10;
    mk 0 10; mk 100 10;
    mk 0 10; mk 100 10 ].

(** Seventeen keypoints of a squat seen from the side: both knees bent to
    100 degrees, the torso leaning 20 degrees from the vertical, ankles as
    far apart as the hips. *)
Definition squat_frame : list keypoint :=
  [ mk 0 (-200); mk 0 (-200); mk 0 (-200); mk 0 (-200); mk 0 (-200);
    mk (-100 + 100 * sin (PI / 9)) (- (100 * cos (PI / 9)));
    mk (100 * sin (PI / 9)) (- (100 * cos (PI / 9)));
    mk 0 (-50); mk 100 (-50);
    mk 0 (-20); mk 100 (-20);
    mk (-100) 0; mk 0 0;
    mk 0 0; mk 100 0;
    mk (- (100 * cos (5 * PI / 9))) (100 * sin (5 * PI / 9));
    mk (100 - 100 * cos (5 * PI / 9)) (100 * sin (5 * PI / 9)) ].

(** ** Translation of a frame *)




(** ** Scoring by a rule table (section 4.4) *)

(** The rules of an exercise type: the message and the penalty of each. *)
Definition push_up_rules : list (string * R) :=
  [ ("Lower your hips - maintain a straight line from head to heels", 0.25);
    ("Raise your hips - avoid sagging in the middle", 0.25);
    ("You're going too deep - aim for 90° at the elbow", 0.15);
    ("Go lower - aim for 90° at the elbow", 0.2);
    ("Fully extend your arms at the top of the push-up", 0.15);
    ("Keep your legs together for better stability", 0.1) ].

Definition squat_rules : list (string * R) :=
  [ ("Squat deeper - aim for thighs parallel to the ground", 0.25);
    ("You're squatting too deep - be careful with your knees", 0.15);
    ("Keep your knees behind your toes", 0.2);
    ("Keep your chest up and back more upright", 0.15);
    ("Widen your stance to shoulder width or slightly wider", 0.1);
    ("Narrow your stance slightly", 0.1);
    ("Keep your knees in line with your toes - don't let them cave inward", 0.15) ].

Definition plank_rules : list (string * R) :=
  [ ("Lower your hips - your body should form a straight line", 0.25);
    ("Raise your hips - don't let them sag toward the ground", 0.25);
    ("Keep your legs straight and in line with your body", 0.15);
    ("Position your elbows directly under your shoulders", 0.15) ].

Definition jumping_jack_rules : list (string * R) :=
  [ ("Raise your arms fully above your head", 0.2);
    ("Jump wider with your feet", 0.15);
    ("Bring your arms fully down by your sides", 0.15);
    ("Bring your feet together between jumps", 0.15);
    ("Keep your hips level during the exercise", 0.1) ].

Definition rule_table (ex : string) : list (string * R) :=
  if decide (ex = "push_up") then push_up_rules
  else if decide (ex = "squat") then squat_rules
  else if decide (ex = "plank") then plank_rules
  else if decide (ex = "jumping_jack") then jumping_jack_rules
  else [].

(** The affirmative messages of an exercise type. *)
Definition affirmative (ex : string) : list string :=
  if decide (ex = "push_up") then
    ["Great push-up form! Maintain a straight body line."]
  else if decide (ex = "squat") then
    ["Excellent squat form! Keep your weight in your heels."]
  else if decide (ex = "plank") then
    ["Great plank form! Keep your core engaged and breathe steadily."]
  else if decide (ex = "jumping_jack") then
    ["Great form! Full extension of arms and legs.";
     "Good control on the landing! Maintain rhythm."]
  else [].

Definition total_penalty (fired : list (string * R)) : R :=
  foldr (λ r acc, r.2 + acc) 0 fired.

(** [out] is what the rule table of [ex] gives for some list [fired] of
    violated rules: the score is 1.0 minus their penalties, clamped to
    [0, 1]; the feedback is their messages, or one affirmative message when
    none fired. *)
Definition scored_by_rules (ex : string) (out : R * list string) : Prop :=
  ∃ fired : list (string * R),
    Forall (λ r, r ∈ rule_table ex) fired ∧
    out.1 = clamp 0 1 (1.0 - total_penalty fired) ∧
    (fired = [] → ∃ m, m ∈ affirmative ex ∧ out.2 = [m]) ∧
    (fired ≠ [] → out.2 = fired.*1).

(** The running pair [(score, feedback)] accounts for the rules fired so
    far. *)
Definition tracks (ex : string) (st : R * list string) : Prop :=
  ∃ fired : list (string * R),
    Forall (λ r, r ∈ rule_table ex) fired ∧
    st.1 = 1.0 - total_penalty fired ∧
    st.2 = fired.*1.

(** The landmarks [_analyze_jumping_jack] needs. *)
Definition jumping_jack_landmarks : list string :=
  [ "left_shoulder"; "right_shoulder"; "left_hip"; "right_hip";
    "left_ankle"; "right_ankle"; "left_wrist"; "right_wrist" ].

Definition insufficient_landmarks : R * list string :=
  (0.5, ["Cannot fully analyze jumping jack - not all key points detected"]).

(** ** Stage detection (section 4.3) *)






(** ** Classification (section 4.2) *)

(** [f(a, b)] when both optional angles are present, [g] otherwise. *)
Definition both_present {A : Type} (a b : option R) (f : R → R → A) (g : A) : A :=
  match a, b with
  | Some x, Some y => f x y
  | _, _ => g
  end.

(** The classifier as the specification words it: the four landmarks are
    required, then the rules are tried in order, an angle being looked at
    as soon as it is present. *)
Definition claimed_exercise_type (kps : list keypoint) (angles : angle_map)
  : option string :=
  match _get_point kps "left_shoulder", _get_point kps "right_shoulder",
        _get_point kps "left_hip", _get_point kps "right_hip" with
  | Some ls, Some rs, Some lh, Some rh =>
      let torso_vertical_distance :=
        Rabs ((py ls + py rs) / 2 - (py lh + py rh) / 2) in
      or_else
        (if decide (torso_vertical_distance < 30) then
           both_present (dict_get angles "left_elbow") (dict_get angles "right_elbow")
             (λ l r, if decide ((l + r) / 2 < 120) then Some "push_up"
                     else Some "plank")
             None
         else None)
     (or_else
        (both_present (dict_get angles "left_knee") (dict_get angles "right_knee")
           (λ l r, if decide ((l + r) / 2 < 160) then Some "squat" else None)
           None)
        (if decide (Rabs (px ls - px rs) > 1.5 * Rabs (px lh - px rh))
         then Some "jumping_jack" else None))
  | _, _, _, _ => None
  end.

(** ** The squat rules on landmarks (section 4.4) *)

(** A knee is more than 30 ahead of its ankle, on either side. *)
Definition knee_over_toe (kps : list keypoint) : Prop :=
  ∃ lk la rk ra,
    _get_point kps "left_knee" = Some lk ∧ _get_point kps "left_ankle" = Some la
    ∧ _get_point kps "right_knee" = Some rk ∧ _get_point kps "right_ankle" = Some ra
    ∧ (px lk > px la + 30 ∨ px rk > px ra + 30).

(** The knees are closer than 0.6 times the hip width. *)
Definition knee_cave (kps : list keypoint) : Prop :=
  ∃ lk rk lh rh,
    _get_point kps "left_knee" = Some lk ∧ _get_point kps "right_knee" = Some rk
    ∧ _get_point kps "left_hip" = Some lh ∧ _get_point kps "right_hip" = Some rh
    ∧ Rabs (px lk - px rk) < Rabs (px lh - px rh) * 0.6.

(** ** Vocabulary of the further properties *)

(** The keys of the eight angles of [named_triples]. *)
Definition named_angle_keys : gset string :=
  list_to_set (named_triples.*1).

(** Seventeen keypoints, torso level, both elbows bent at a right angle,
    legs collapsed onto the hips. *)
Definition bent_arms_frame : list keypoint :=
  [ mk 50 (-20); mk 50 (-20); mk 50 (-20); mk 50 (-20); mk 50 (-20);
    mk 0 0; mk 100 0;
    mk 0 50; mk 100 50;
    mk 25 50; mk 125 50;
    mk 0 10; mk 100 10;
    mk 0 10; mk 100 10;
    mk 0 10; mk 100 10 ].




Definition mirror (kp : keypoint) : keypoint :=
  Keypoint ((λ x, - x) <$> kp_x kp) (kp_y kp) (kp_score kp).

Definition mirror_frame (kps : list keypoint) : list keypoint := mirror <$> kps.

Definition mirror_point (p : point) : point := Point (- px p) (py p) (pscore p).

(** The running score is at least [c] (and at most 1). *)
Definition floor (c : R) (st : R * list string) : Prop := c <= st.1 <= 1.




(** A frame in normalized coordinates: every coordinate that is there lies
    in [0, 1]. *)
Definition normalized (kps : list keypoint) : Prop :=
  ∀ kp, kp ∈ kps →
    (∀ x, kp_x kp = Some x → 0 <= x <= 1) ∧ (∀ y, kp_y kp = Some y → 0 <= y <= 1).

(** Seventeen keypoints in normalized coordinates: a person standing
    upright, arms hanging. *)
Definition standing_frame : list keypoint :=
  [ mk 0.5 0.1; mk 0.5 0.1; mk 0.5 0.1; mk 0.5 0.1; mk 0.5 0.1;
    mk 0.4 0.2; mk 0.6 0.2;
    mk 0.4 0.4; mk 0.6 0.4;
    mk 0.4 0.5; mk 0.6 0.5;
    mk 0.4 0.5; mk 0.6 0.5;
    mk 0.4 0.7; mk 0.6 0.7;
    mk 0.4 0.9; mk 0.6 0.9 ].

(** The twelve landmarks the analyzer asks for. *)
Definition body_landmarks : list string :=
  [ "left_shoulder"; "right_shoulder"; "left_elbow"; "right_elbow";
    "left_wrist"; "right_wrist"; "left_hip"; "right_hip";
    "left_knee"; "right_knee"; "left_ankle"; "right_ankle" ].

(** [folded_arms_frame] with other face keypoints (one of them without
    coordinates) and two more keypoints at the end. *)
Definition folded_arms_variant : list keypoint :=
  [ mk 1 2; Keypoint None None None; mk 3 4; mk 5 6; mk 7 8;
    mk 0 0; mk 100 0;
    mk 0 50; mk 100 50;
    mk 0 25; mk 100 25;
    mk 0 10; mk 100 10;
    mk 0 10; mk 100 10;
    mk 0 10; mk 100 10;
    mk 9 9; mk 10 10 ].

(** Every keypoint of the frame carries a confidence below the threshold. *)
Definition all_low (kps : list keypoint) : Prop :=
  ∀ kp, kp ∈ kps → ∃ s, kp_score kp = Some s ∧ s < 0.2.

(** [short_frame] extended to seventeen keypoints, every one with the
    confidence 0.05. *)
Definition noise_frame : list keypoint :=
  (λ kp, Keypoint (kp_x kp) (kp_y kp) (Some 0.05))
  <$> (short_frame ++ [mk 150 400; mk 250 400; mk 150 500; mk 250 500]).

(** * Properties *)

(** ** Arithmetic of the embedding *)

Lemma sumsq_nonneg (a b : R) : ¬ (a ^ 2 + b ^ 2 < 0).
Proof. pose proof (pow2_ge_0 a). pose proof (pow2_ge_0 b). lra. Qed.

Lemma math_sqrt_sumsq (a b : R) :
  math_sqrt (a ^ 2 + b ^ 2) = Ok (sqrt (a * a + b * b)).
Proof.
  unfold math_sqrt. rewrite decide_False by apply sumsq_nonneg.
  do 2 f_equal. ring.
Qed.

Lemma py_clamp_eq (c : R) : py_max (-1) (py_min 1 c) = clamp (-1) 1 c.
Proof.
  unfold py_max, py_min, clamp, Rmax, Rmin.
  repeat case_decide; repeat destruct (Rle_dec _ _); lra.
Qed.

Lemma clamp_range (c : R) : -1 <= clamp (-1) 1 c <= 1.
Proof.
  unfold clamp, Rmax, Rmin. repeat destruct (Rle_dec _ _); lra.
Qed.

Lemma math_acos_ok (c : R) : -1 <= c <= 1 → math_acos c = Ok (acos c).
Proof. intros H. unfold math_acos. rewrite !decide_False by lra. reflexivity. Qed.

Lemma py_div_ok (x y : R) : y ≠ 0 → py_div x y = Ok (x / y).
Proof. intros H. unfold py_div. rewrite decide_False by done. reflexivity. Qed.

Lemma math_degrees_range (x : R) : 0 <= x <= PI → 0 <= math_degrees x <= 180.
Proof.
  intros [H0 H1]. pose proof PI_RGT_0 as Hpi. unfold math_degrees.
  replace (x * (180 / PI)) with (x / PI * 180) by (field; lra).
  assert (0 <= x / PI <= 1) as [? ?]; [|lra].
  split.
  - apply Rmult_le_pos; [lra|]. left. apply Rinv_0_lt_compat. lra.
  - apply (Rmult_le_reg_r PI); [lra|]. field_simplify; lra.
Qed.

Lemma angle_at_range (A V C : point) : 0 <= angle_at A V C <= 180.
Proof.
  unfold angle_at.
  pose proof (math_degrees_range (acos (clamp (-1) 1
    (dot (vec A V) (vec C V) / (magnitude (vec A V) * magnitude (vec C V))))))
    as H.
  unfold math_degrees in H.
  replace (acos _ * 180 / PI) with
    (acos (clamp (-1) 1 (dot (vec A V) (vec C V)
       / (magnitude (vec A V) * magnitude (vec C V)))) * (180 / PI))
    by (field; pose proof PI_RGT_0; lra).
  apply H, acos_bound.
Qed.

Lemma magnitude_zero (u : R * R) : magnitude u = 0 ↔ u.1 = 0 ∧ u.2 = 0.
Proof.
  unfold magnitude. split.
  - intros H. apply sqrt_eq_0 in H; [|nra]. nra.
  - intros [-> ->]. rewrite Rmult_0_l, Rplus_0_l. apply sqrt_0.
Qed.

(** ** [_get_point] *)

Lemma _get_point_lookup (kps : list keypoint) (name : string) (i : nat) :
  joint_indices !! name = Some i → _get_point kps name = kps !! i ≫= to_point.
Proof.
  intros H. unfold _get_point. rewrite H.
  destruct (decide _) as [Hle|Hle].
  - rewrite (lookup_ge_None_2 kps i) by lia. reflexivity.
  - destruct (kps !! i); reflexivity.
Qed.

Lemma _get_point_out_of_bounds (kps : list keypoint) (name : string) (i : nat) :
  joint_indices !! name = Some i → (length kps ≤ i)%nat → _get_point kps name = None.
Proof.
  intros H Hle. rewrite (_get_point_lookup _ _ _ H).
  rewrite (lookup_ge_None_2 kps i) by lia. reflexivity.
Qed.

Lemma _get_point_unknown (kps : list keypoint) (name : string) :
  joint_indices !! name = None → _get_point kps name = None.
Proof. intros H. unfold _get_point. rewrite H. reflexivity. Qed.

(** ** [_calculate_angle] in closed form *)

Lemma _calculate_angle_value (p1 p2 p3 : option point) :
  _calculate_angle p1 p2 p3 = Ok (angle_value p1 p2 p3).
Proof.
  unfold _calculate_angle, angle_value.
  destruct p1 as [A|], p2 as [V|], p3 as [C|]; try reflexivity.
  destruct (low_confidence A || low_confidence V || low_confidence C);
    [reflexivity|].
  cbn [fst snd]. rewrite !math_sqrt_sumsq. cbn [mbind result_bind].
  unfold magnitude, vec; cbn [fst snd].
  case_decide as Hz; [reflexivity|].
  rewrite py_div_ok by done. cbn [mbind result_bind].
  rewrite py_clamp_eq, math_acos_ok by apply clamp_range.
  cbn [mbind result_bind]. unfold angle_at, math_degrees, dot, magnitude, vec.
  cbn [fst snd]. do 2 f_equal. field. pose proof PI_RGT_0. lra.
Qed.

(** ** [_calculate_joint_angles] in closed form *)

Lemma _calculate_joint_angles_short (kps : list keypoint) :
  (length kps < 17)%nat → _calculate_joint_angles kps = Ok ∅.
Proof.
  intros H. unfold _calculate_joint_angles.
  rewrite (bool_decide_eq_true_2 (length kps < 17)%nat) by done.
  rewrite orb_true_r. reflexivity.
Qed.

Lemma _calculate_joint_angles_long (kps : list keypoint) :
  (17 ≤ length kps)%nat → _calculate_joint_angles kps = Ok (angles_of kps).
Proof.
  intros H. unfold _calculate_joint_angles, angles_of.
  rewrite (bool_decide_eq_false_2 (length kps < 17)%nat) by lia.
  rewrite (bool_decide_eq_false_2 (kps = [])) by (intros ->; simpl in H; lia).
  cbn [orb]. rewrite !_calculate_angle_value. cbn [mbind result_bind].
  destruct (_get_point kps "left_shoulder"), (_get_point kps "left_hip");
    try reflexivity.
  rewrite _calculate_angle_value. reflexivity.
Qed.

Lemma _calculate_joint_angles_total (kps : list keypoint) :
  ∃ angles, _calculate_joint_angles kps = Ok angles.
Proof.
  destruct (decide (length kps < 17)%nat).
  - exists ∅. by apply _calculate_joint_angles_short.
  - exists (angles_of kps). apply _calculate_joint_angles_long. lia.
Qed.

Lemma angles_of_named (kps : list keypoint) (name a v c : string) :
  (name, (a, v, c)) ∈ named_triples →
  angles_of kps !! name
  = Some (angle_value (_get_point kps a) (_get_point kps v) (_get_point kps c)).
Proof.
  intros Hin. unfold named_triples in Hin.
  repeat (apply elem_of_cons in Hin as [[= -> -> -> ->]|Hin];
          [unfold angles_of;
           destruct (_get_point kps "left_shoulder"), (_get_point kps "left_hip");
           reflexivity|]).
  by apply elem_of_nil in Hin.
Qed.

(** ** C4: the angle of a named triple *)

Lemma low_confidence_true (P : point) :
  low_confidence P = true ↔ confidence_below P.
Proof.
  unfold low_confidence, confidence_below, min_confidence.
  destruct (pscore P) as [s|].
  - rewrite bool_decide_eq_true. split; [eauto|]. by intros (? & [= <-] & ?).
  - split; [done|]. by intros (? & [=] & ?).
Qed.



(** ** C7: translation invariance *)







(** ** The scoring rule sets account for every penalty *)

(** Turn the first [let] of the goal into a local definition. *)
Ltac name_let :=
  match goal with
  | |- context G [let x := ?a in @?f x] =>
      let y := fresh x in
      pose (y := a);
      let g := context G [f y] in
      change g; cbv beta
  end.

Lemma total_penalty_app (f1 f2 : list (string * R)) :
  total_penalty (f1 ++ f2) = total_penalty f1 + total_penalty f2.
Proof. induction f1 as [|r f1 IH]; simpl; [lra|]. rewrite IH. lra. Qed.

Lemma tracks_init (ex : string) : tracks ex (1.0, []).
Proof. exists []. split; [constructor|]. simpl. split; [lra|done]. Qed.

Lemma tracks_penalize (ex m : string) (p : R) (st : R * list string) :
  (m, p) ∈ rule_table ex → tracks ex st → tracks ex (penalize m p st).
Proof.
  intros Hin (fired & HF & Hs & Hf). exists (fired ++ [(m, p)]). split; [|split].
  - apply Forall_app. split; [done|]. by constructor.
  - unfold penalize; simpl. rewrite total_penalty_app, Hs. simpl. lra.
  - unfold penalize; simpl. by rewrite fmap_app, Hf.
Qed.

Lemma tracks_if_both (ex : string) (a b : option R)
    (f : R → R → R * list string) (st : R * list string) :
  (∀ l r, tracks ex (f l r)) → tracks ex st → tracks ex (if_both a b f st).
Proof.
  intros Hf Hst. unfold if_both. destruct a, b; try done.
  destruct (_ && _); auto.
Qed.

Lemma py_clamp01_eq (x : R) : py_max 0.0 (py_min 1.0 x) = clamp 0 1 x.
Proof.
  unfold py_max, py_min, clamp, Rmax, Rmin.
  repeat case_decide; repeat destruct (Rle_dec _ _); lra.
Qed.


Lemma finish_scored (ex aff : string) (st : R * list string) :
  aff ∈ affirmative ex → tracks ex st → scored_by_rules ex (finish aff st).
Proof.
  intros Haff (fired & HF & Hs & Hf). exists fired. split; [done|].
  unfold finish. cbn [fst snd]. rewrite py_clamp01_eq, Hs, Hf.
  split; [done|]. split.
  - intros ->. exists aff. split; [done|]. reflexivity.
  - intros Hne. destruct fired; [done|]. reflexivity.
Qed.


Ltac in_list := repeat first [apply list_elem_of_here | apply list_elem_of_further].

Lemma rule_table_eq :
  rule_table "push_up" = push_up_rules ∧ rule_table "squat" = squat_rules
  ∧ rule_table "plank" = plank_rules
  ∧ rule_table "jumping_jack" = jumping_jack_rules.
Proof. repeat split; reflexivity. Qed.

Lemma affirmative_eq :
  affirmative "push_up" = ["Great push-up form! Maintain a straight body line."]
  ∧ affirmative "squat" = ["Excellent squat form! Keep your weight in your heels."]
  ∧ affirmative "plank"
    = ["Great plank form! Keep your core engaged and breathe steadily."]
  ∧ affirmative "jumping_jack"
    = ["Great form! Full extension of arms and legs.";
       "Good control on the landing! Maintain rhythm."].
Proof. repeat split; reflexivity. Qed.

Ltac in_table :=
  let H := fresh in
  pose proof rule_table_eq as (? & ? & ? & ?);
  pose proof affirmative_eq as (? & ? & ? & ?);
  repeat match goal with
    | E : rule_table ?ex = _ |- context [rule_table ?ex] => rewrite E
    | E : affirmative ?ex = _ |- context [affirmative ?ex] => rewrite E
    end;
  unfold push_up_rules, squat_rules, plank_rules, jumping_jack_rules;
  in_list.

Ltac tracks_step :=
  match goal with
  | |- tracks _ (penalize _ _ _) => apply tracks_penalize; [in_table|]
  | |- tracks _ (if_both _ _ _ _) => apply tracks_if_both; [intros ? ?|]
  | |- tracks _ (if ?c then _ else _) => destruct c
  | |- tracks _ (match ?o with Some _ => _ | None => _ end) => destruct o
  | |- tracks _ (let x := _ in _) => cbv zeta
  | |- tracks _ _ => assumption
  | |- tracks _ _ => apply tracks_init
  end.

(** Name the [let]s of the goal one after the other; every running pair is
    shown to track the table and then forgotten. *)
Ltac tracks_lets ex :=
  repeat (name_let;
          match goal with
          | x := _ : (R * list string)%type |- _ =>
              assert (tracks ex x) by (subst x; repeat tracks_step);
              clearbody x
          | x := _ |- _ => clearbody x
          end).

Lemma _analyze_squat_scored (kps : list keypoint) (angles : angle_map) :
  ∃ out, _analyze_squat kps angles = Ok out ∧ scored_by_rules "squat" out.
Proof.
  cbv beta delta [_analyze_squat]. tracks_lets "squat".
  eexists. split; [reflexivity|]. apply finish_scored; [in_table|done].
Qed.

Lemma _analyze_push_up_scored (kps : list keypoint) (angles : angle_map) :
  ∃ out, _analyze_push_up kps angles = Ok out ∧ scored_by_rules "push_up" out.
Proof.
  cbv beta delta [_analyze_push_up]. tracks_lets "push_up".
  destruct left_ankle as [la|], right_ankle as [ra|];
    try rewrite math_sqrt_sumsq; cbn [mbind result_bind];
    try case_decide; cbn [mbind result_bind];
    (eexists; split; [reflexivity|]; apply finish_scored; [in_table|]);
    repeat tracks_step.
Qed.

Lemma _analyze_plank_scored (kps : list keypoint) (angles : angle_map) :
  ∃ out, _analyze_plank kps angles = Ok out ∧ scored_by_rules "plank" out.
Proof.
  cbv beta delta [_analyze_plank]. tracks_lets "plank".
  destruct left_elbow as [le|], right_elbow as [re|],
           left_shoulder as [ls|], right_shoulder as [rs|];
    try rewrite !math_sqrt_sumsq; cbn [mbind result_bind];
    try destruct (_ || _); cbn [mbind result_bind];
    (eexists; split; [reflexivity|]; apply finish_scored; [in_table|]);
    repeat tracks_step.
Qed.

(** Forget the body of a local definition, keeping it as an equation. *)
Ltac remember_let x :=
  let E := fresh "E" x in
  assert (E : x = x) by reflexivity; unfold x at 1 in E; clearbody x.

Ltac missing :=
  exists insufficient_landmarks; split; [reflexivity|]; right; split;
    [|reflexivity];
  match goal with
  | E : _get_point _ ?n = None |- _ =>
      exists n; split; [unfold jumping_jack_landmarks; in_list|exact E]
  end.

Lemma _analyze_jumping_jack_scored (kps : list keypoint) (angles : angle_map) :
  ∃ out, _analyze_jumping_jack kps angles = Ok out ∧
    (scored_by_rules "jumping_jack" out
     ∨ (∃ n, n ∈ jumping_jack_landmarks ∧ _get_point kps n = None)
       ∧ out = insufficient_landmarks).
Proof.
  cbv beta delta [_analyze_jumping_jack].
  name_let. assert (tracks "jumping_jack" st) by apply tracks_init. clearbody st.
  do 8 (name_let; match goal with x := _ : option point |- _ => remember_let x end).
  destruct left_shoulder as [ls|]; [|missing].
  destruct right_shoulder as [rs|]; [|missing].
  destruct left_hip as [lh|]; [|missing].
  destruct right_hip as [rh|]; [|missing].
  destruct left_ankle as [la|]; [|missing].
  destruct right_ankle as [ra|]; [|missing].
  destruct left_wrist as [lw|]; [|missing].
  destruct right_wrist as [rw|]; [|missing].
  tracks_lets "jumping_jack".
  eexists. split; [reflexivity|]. left.
  apply finish_scored; [case_decide; in_table|done].
Qed.

(** ** The registry and the facade *)

Lemma exercise_types_cases (ex : string)
    (analysis : list keypoint → angle_map → result (R * list string)) :
  exercise_types !! ex = Some analysis →
  (ex = "push_up" ∧ analysis = _analyze_push_up)
  ∨ (ex = "squat" ∧ analysis = _analyze_squat)
  ∨ (ex = "plank" ∧ analysis = _analyze_plank)
  ∨ (ex = "jumping_jack" ∧ analysis = _analyze_jumping_jack).
Proof.
  unfold exercise_types. cbn [list_to_map foldr uncurry fst snd].
  intros H.
  repeat (rewrite lookup_insert in H; case_decide; [simplify_eq; tauto|]).
  by rewrite lookup_empty in H.
Qed.

Lemma exercise_types_None (ex : string) :
  ex ≠ "push_up" → ex ≠ "squat" → ex ≠ "plank" → ex ≠ "jumping_jack" →
  exercise_types !! ex = None.
Proof.
  intros. destruct (exercise_types !! ex) as [analysis|] eqn:E; [|done].
  apply exercise_types_cases in E as [[? _]|[[? _]|[[? _]|[? _]]]]; done.
Qed.

Lemma analysis_outcome (ex : string)
    (analysis : list keypoint → angle_map → result (R * list string))
    (kps : list keypoint) (angles : angle_map) :
  exercise_types !! ex = Some analysis →
  ∃ out, analysis kps angles = Ok out ∧
    (scored_by_rules ex out
     ∨ ex = "jumping_jack"
       ∧ (∃ n, n ∈ jumping_jack_landmarks ∧ _get_point kps n = None)
       ∧ out = insufficient_landmarks).
Proof.
  intros H. apply exercise_types_cases in H
    as [[-> ->]|[[-> ->]|[[-> ->]|[-> ->]]]].
  - destruct (_analyze_push_up_scored kps angles) as (out & ? & ?); eauto.
  - destruct (_analyze_squat_scored kps angles) as (out & ? & ?); eauto.
  - destruct (_analyze_plank_scored kps angles) as (out & ? & ?); eauto.
  - destruct (_analyze_jumping_jack_scored kps angles) as (out & ? & [?|[? ?]]);
      eauto 10.
Qed.


Lemma analyze_exercise_total (kps : list keypoint) (hint : option string) :
  ∃ r, analyze_exercise kps hint = Ok r.
Proof.
  unfold analyze_exercise.
  destruct (_calculate_joint_angles_total kps) as (angles & ->).
  cbn [mbind result_bind].
  destruct (_ ≫= _) as [analysis|] eqn:E; [|eauto].
  apply bind_Some in E as (ex & _ & E).
  destruct (analysis_outcome ex analysis kps angles E) as ([score fb] & -> & _).
  cbn [mbind result_bind]. eauto.
Qed.


(** ** Evaluation at concrete frames *)

(** The two ways out of the facade: a type of the registry was found, or
    not. *)
Lemma analyze_exercise_with (kps : list keypoint) (hint : option string)
    (angles : angle_map) (ex : string)
    (analysis : list keypoint → angle_map → result (R * list string))
    (out : R * list string) :
  _calculate_joint_angles kps = Ok angles →
  (if truthy_str hint then hint else _detect_exercise_type kps angles) = Some ex →
  exercise_types !! ex = Some analysis →
  analysis kps angles = Ok out →
  analyze_exercise kps hint
  = Ok {| exercise_detected := true;
          exercise_type := ex;
          form_score := out.1;
          feedback := out.2;
          joint_angles := angles;
          stage := Some (_detect_exercise_stage ex angles) |}.
Proof.
  intros Ha Hd He Hout. unfold analyze_exercise. rewrite Ha.
  cbn [mbind result_bind].
  replace (if negb (truthy_str hint) then _detect_exercise_type kps angles
           else hint) with (Some ex) by (by destruct (truthy_str hint)).
  cbn [mbind option_bind]. rewrite He, Hout. destruct out as [score fb].
  cbn [mbind result_bind fst snd default]. do 2 f_equal.
  cbn [truthy_str]. rewrite bool_decide_eq_true_2; [done|].
  intros ->. by rewrite exercise_types_None in He.
Qed.

Lemma analyze_exercise_without (kps : list keypoint) (hint : option string)
    (angles : angle_map) (detected_type : option string) :
  _calculate_joint_angles kps = Ok angles →
  (if truthy_str hint then hint else _detect_exercise_type kps angles)
  = detected_type →
  detected_type ≫= (exercise_types !!.) = None →
  analyze_exercise kps hint
  = Ok {| exercise_detected := bool_decide (detected_type ≠ None);
          exercise_type := if truthy_str detected_type
                           then default "" detected_type else "unknown";
          form_score := 0.0;
          feedback := ["No valid exercise detected"];
          joint_angles := angles;
          stage := None |}.
Proof.
  intros Ha Hd He. unfold analyze_exercise. rewrite Ha.
  cbn [mbind result_bind].
  replace (if negb (truthy_str hint) then _detect_exercise_type kps angles
           else hint) with detected_type by (by destruct (truthy_str hint)).
  by rewrite He.
Qed.

Ltac rarith :=
  cbn [px py pscore fst snd] in *; unfold Rabs;
  repeat destruct (Rcase_abs _); lra.

Ltac rdecide :=
  repeat match goal with
    | |- context [decide (?a = ?b)] =>
        lazymatch type of a with
        | string =>
            destruct (decide (a = b)) as [?|?];
            [first [discriminate | idtac]
            |first [congruence | idtac]]
        end
    | |- context [decide ?P] =>
        first [ rewrite (decide_True (P:=P)) by solve [rarith]
              | rewrite (decide_False (P:=P)) by solve [rarith] ]
    | |- context [bool_decide ?P] =>
        first [ rewrite (bool_decide_eq_true_2 P) by solve [rarith]
              | rewrite (bool_decide_eq_false_2 P) by solve [rarith] ]
    end.

Lemma truthy_zero : truthy (Some 0) = false.
Proof. unfold truthy. by rewrite bool_decide_eq_false_2 by (intros H; by apply H). Qed.

Lemma truthy_Some (x : R) : truthy (Some x) = true ↔ x ≠ 0.
Proof. unfold truthy. by rewrite bool_decide_eq_true. Qed.

Lemma if_both_falsy {A : Type} (a b : option R) (f : R → R → A) (g : A) :
  truthy a = false ∨ truthy b = false → if_both a b f g = g.
Proof.
  intros H. unfold if_both. destruct a, b; try done.
  destruct H as [-> | ->]; [done|]. by rewrite andb_false_r.
Qed.

Lemma if_both_truthy {A : Type} (x y : R) (f : R → R → A) (g : A) :
  x ≠ 0 → y ≠ 0 → if_both (Some x) (Some y) f g = f x y.
Proof.
  intros Hx Hy. unfold if_both, truthy.
  by rewrite !bool_decide_eq_true_2.
Qed.

Lemma _detect_exercise_stage_jumping_jack_absent (angles : angle_map) :
  truthy (dict_get_default angles "left_shoulder" 0) = false
  ∨ truthy (dict_get_default angles "right_shoulder" 0) = false →
  _detect_exercise_stage "jumping_jack" angles = "neutral".
Proof.
  intros H. unfold _detect_exercise_stage. rdecide.
  by apply if_both_falsy.
Qed.

(** ** C6: the facade always returns *)


(** ** C1: frames of fewer than 17 keypoints *)

Lemma short_frame_points :
  _get_point short_frame "left_shoulder" = Some (Point 100 100 (Some 0.9))
  ∧ _get_point short_frame "right_shoulder" = Some (Point 300 100 (Some 0.9))
  ∧ _get_point short_frame "left_hip" = Some (Point 150 300 (Some 0.9))
  ∧ _get_point short_frame "right_hip" = Some (Point 250 300 (Some 0.9))
  ∧ _get_point short_frame "left_knee" = None
  ∧ _get_point short_frame "right_knee" = None
  ∧ _get_point short_frame "left_ankle" = None
  ∧ _get_point short_frame "right_ankle" = None.
Proof. repeat split; reflexivity. Qed.




(** ** C10: a hint outside the registry *)

(** C10. A non-empty hint that is none of the four registered types gives
    an assessment with [exercise_detected = true], the hint as type, score
    0.0, the single message "No valid exercise detected" and no stage.  The
    empty string behaves as no hint. *)
Theorem unregistered_hint (kps : list keypoint) (hint : string) :
  hint ≠ "" →
  hint ∉ ["push_up"; "squat"; "plank"; "jumping_jack"] →
  (∃ r, analyze_exercise kps (Some hint) = Ok r
        ∧ exercise_detected r = true
        ∧ exercise_type r = hint
        ∧ form_score r = 0.0
        ∧ feedback r = ["No valid exercise detected"]
        ∧ stage r = None)
  ∧ analyze_exercise kps (Some "") = analyze_exercise kps None.
Proof.
  intros Hne Hnot. split; [|reflexivity].
  destruct (_calculate_joint_angles_total kps) as (angles & Ha).
  assert (truthy_str (Some hint) = true) as Ht
    by (by apply bool_decide_eq_true_2).
  eexists. split.
  - apply (analyze_exercise_without kps (Some hint) angles (Some hint) Ha).
    + by rewrite Ht.
    + cbn [mbind option_bind]. rewrite !not_elem_of_cons in Hnot.
      apply exercise_types_None; tauto.
  - cbn [exercise_detected exercise_type form_score feedback stage].
    rewrite Ht. by rewrite bool_decide_eq_true_2.
Qed.

Lemma unregistered_hint_witness :
  (∃ r, analyze_exercise [] (Some "yoga") = Ok r
        ∧ exercise_detected r = true
        ∧ exercise_type r = "yoga"
        ∧ form_score r = 0.0
        ∧ feedback r = ["No valid exercise detected"]
        ∧ stage r = None)
  ∧ analyze_exercise [] (Some "") = analyze_exercise [] None.
Proof.
  apply (unregistered_hint [] "yoga"); [done|].
  rewrite !not_elem_of_cons. repeat split; try done. apply not_elem_of_nil.
Defined.

(** ** C2: stage detection *)





(** ** C9: an angle of exactly 0 *)

Lemma dict_get_insert (angles : angle_map) (name k : string) (v : option R) :
  dict_get (<[name := v]> angles) k
  = if decide (name = k) then v else dict_get angles k.
Proof. unfold dict_get. rewrite lookup_insert. by case_decide. Qed.

Lemma if_both_zero_l {A : Type} (b : option R) (f : R → R → A) (g : A) :
  if_both (Some 0) b f g = if_both None b f g.
Proof. apply if_both_falsy. left. apply truthy_zero. Qed.

Lemma if_both_zero_r {A : Type} (a : option R) (f : R → R → A) (g : A) :
  if_both a (Some 0) f g = if_both a None f g.
Proof.
  rewrite if_both_falsy by (right; apply truthy_zero).
  by destruct a.
Qed.

Lemma if_both_None_l {A : Type} (b : option R) (f : R → R → A) (g : A) :
  if_both None b f g = g.
Proof. reflexivity. Qed.

Lemma if_both_None_r {A : Type} (a : option R) (f : R → R → A) (g : A) :
  if_both a None f g = g.
Proof. by destruct a. Qed.

Lemma or_else_None {A : Type} (rest : option A) : or_else None rest = rest.
Proof. reflexivity. Qed.

Lemma if_both_cases {A : Type} (a b : option R) (f : R → R → A) (g : A) :
  (∃ x y, a = Some x ∧ b = Some y ∧ x ≠ 0 ∧ y ≠ 0 ∧ if_both a b f g = f x y)
  ∨ ((truthy a = false ∨ truthy b = false) ∧ if_both a b f g = g).
Proof.
  destruct a as [x|], b as [y|]; try (right; split; [auto|reflexivity]).
  - destruct (truthy (Some x)) eqn:Hx; [destruct (truthy (Some y)) eqn:Hy|].
    + left. exists x, y. apply truthy_Some in Hx, Hy.
      repeat split; try done. by apply if_both_truthy.
    + right. split; [auto|]. apply if_both_falsy; auto.
    + right. split; [auto|]. apply if_both_falsy; auto.
Qed.

(** Which rule gave the answer of the classifier. *)
Lemma _detect_exercise_type_elbows (kps : list keypoint) (angles : angle_map)
    (s : string) :
  _detect_exercise_type kps angles = Some s → s = "push_up" ∨ s = "plank" →
  truthy (dict_get angles "left_elbow") = true
  ∧ truthy (dict_get angles "right_elbow") = true.
Proof.
  unfold _detect_exercise_type.
  destruct (_get_point kps "left_shoulder") as [ls|]; [|done].
  destruct (_get_point kps "right_shoulder") as [rs|]; [|done].
  destruct (_get_point kps "left_hip") as [lh|]; [|done].
  destruct (_get_point kps "right_hip") as [rh|]; [|done].
  cbv zeta.
  destruct (if_both_cases (dict_get angles "left_elbow")
              (dict_get angles "right_elbow")
              (λ l r, if decide ((l + r) / 2 < 120) then Some "push_up"
                      else Some "plank") None)
    as [(x & y & -> & -> & Hx & Hy & ->)|[_ ->]].
  { intros _ _. split; by apply truthy_Some. }
  replace (if decide (Rabs ((py ls + py rs) / 2 - (py lh + py rh) / 2) < 30)
           then None else None) with (@None string) by (by case_decide).
  rewrite or_else_None.
  destruct (if_both_cases (dict_get angles "left_knee")
              (dict_get angles "right_knee")
              (λ l r, if decide ((l + r) / 2 < 160) then Some "squat"
                      else None) None)
    as [(x & y & _ & _ & _ & _ & ->)|[_ ->]];
    destruct (_get_point kps "left_knee"), (_get_point kps "right_knee");
    unfold or_else; repeat case_decide; intros [= <-] [?|?]; done.
Qed.

Lemma _detect_exercise_type_knees (kps : list keypoint) (angles : angle_map) :
  _detect_exercise_type kps angles = Some "squat" →
  truthy (dict_get angles "left_knee") = true
  ∧ truthy (dict_get angles "right_knee") = true.
Proof.
  unfold _detect_exercise_type.
  destruct (_get_point kps "left_shoulder") as [ls|]; [|done].
  destruct (_get_point kps "right_shoulder") as [rs|]; [|done].
  destruct (_get_point kps "left_hip") as [lh|]; [|done].
  destruct (_get_point kps "right_hip") as [rh|]; [|done].
  cbv zeta.
  destruct (if_both_cases (dict_get angles "left_elbow")
              (dict_get angles "right_elbow")
              (λ l r, if decide ((l + r) / 2 < 120) then Some "push_up"
                      else Some "plank") None)
    as [(x & y & _ & _ & _ & _ & ->)|[_ ->]].
  - destruct (if_both_cases (dict_get angles "left_knee")
                (dict_get angles "right_knee")
                (λ l r, if decide ((l + r) / 2 < 160) then Some "squat"
                        else None) None)
      as [(x' & y' & -> & -> & Hx & Hy & ->)|[_ ->]].
    { intros _. split; by apply truthy_Some. }
    destruct (_get_point kps "left_knee"), (_get_point kps "right_knee");
      unfold or_else; repeat case_decide; intros [= ?]; done.
  - destruct (if_both_cases (dict_get angles "left_knee")
                (dict_get angles "right_knee")
                (λ l r, if decide ((l + r) / 2 < 160) then Some "squat"
                        else None) None)
      as [(x' & y' & -> & -> & Hx & Hy & ->)|[_ ->]].
    { intros _. split; by apply truthy_Some. }
    destruct (_get_point kps "left_knee"), (_get_point kps "right_knee");
      unfold or_else; repeat case_decide; intros [= ?]; done.
Qed.

(** C9. An elbow or knee angle of exactly 0 is to the classifier what a
    [None] is: the answer is the same as with [None] in its place, rule 1
    gives neither push_up nor plank, rule 2 does not give squat.  In stage
    detection for jumping_jack a shoulder angle that is 0, or missing from
    the dictionary (default 0), gives neutral whatever the other angle. *)
Theorem zero_angle_behaves_as_absent (kps : list keypoint) (angles : angle_map)
    (name : string) :
  dict_get angles name = Some 0 →
  (name ∈ ["left_elbow"; "right_elbow"; "left_knee"; "right_knee"] →
   _detect_exercise_type kps angles
   = _detect_exercise_type kps (<[name := None]> angles)) ∧
  (name ∈ ["left_elbow"; "right_elbow"] →
   _detect_exercise_type kps angles ≠ Some "push_up"
   ∧ _detect_exercise_type kps angles ≠ Some "plank") ∧
  (name ∈ ["left_knee"; "right_knee"] →
   _detect_exercise_type kps angles ≠ Some "squat") ∧
  (name ∈ ["left_shoulder"; "right_shoulder"] →
   _detect_exercise_stage "jumping_jack" angles = "neutral") ∧
  (∀ angles' : angle_map,
     name ∈ ["left_shoulder"; "right_shoulder"] → angles' !! name = None →
     _detect_exercise_stage "jumping_jack" angles' = "neutral").
Proof.
  intros H0. split; [|split; [|split; [|split]]].
  - intros Hin. unfold _detect_exercise_type.
    rewrite !dict_get_insert.
    repeat (apply elem_of_cons in Hin as [->|Hin];
            [rdecide; rewrite H0, ?if_both_zero_l, ?if_both_zero_r;
             reflexivity|]).
    by apply elem_of_nil in Hin.
  - intros Hin. split; intros Hs;
      apply _detect_exercise_type_elbows in Hs as [Hl Hr]; auto;
      unfold dict_get in *;
      repeat (apply elem_of_cons in Hin as [->|Hin];
              [destruct (angles !! _) as [v|]; [subst v|done];
               by rewrite truthy_zero in *|]);
      by apply elem_of_nil in Hin.
  - intros Hin Hs.
    apply _detect_exercise_type_knees in Hs as [Hl Hr];
      unfold dict_get in *;
      repeat (apply elem_of_cons in Hin as [->|Hin];
              [destruct (angles !! _) as [v|]; [subst v|done];
               by rewrite truthy_zero in *|]);
      by apply elem_of_nil in Hin.
  - intros Hin. apply _detect_exercise_stage_jumping_jack_absent.
    unfold dict_get in H0. unfold dict_get_default.
    repeat (apply elem_of_cons in Hin as [->|Hin];
            [destruct (angles !! _) as [v|]; [subst v|done];
             (left; apply truthy_zero) || (right; apply truthy_zero)|]).
    by apply elem_of_nil in Hin.
  - intros angles' Hin Hnone. apply _detect_exercise_stage_jumping_jack_absent.
    unfold dict_get_default.
    repeat (apply elem_of_cons in Hin as [->|Hin];
            [rewrite Hnone;
             (left; apply truthy_zero) || (right; apply truthy_zero)|]).
    by apply elem_of_nil in Hin.
Qed.

Lemma zero_angle_behaves_as_absent_witness :
  _detect_exercise_type folded_arms_frame {["left_elbow" := Some 0]}
  = _detect_exercise_type folded_arms_frame
      (<["left_elbow" := None]> {["left_elbow" := Some 0]}).
Proof.
  apply (zero_angle_behaves_as_absent folded_arms_frame
           {["left_elbow" := Some 0]} "left_elbow").
  - reflexivity.
  - apply list_elem_of_here.
Defined.

(** ** C5: scores and feedback *)




(** ** C3: the classifier *)

Lemma magnitude_eval (u : R * R) (m : R) :
  0 <= m → u.1 * u.1 + u.2 * u.2 = m * m → magnitude u = m.
Proof. intros Hm H. unfold magnitude. rewrite H. by apply sqrt_square. Qed.

Lemma angle_value_eval (A V C : point) (m1 m2 c : R) :
  low_confidence A = false → low_confidence V = false →
  low_confidence C = false →
  0 < m1 → 0 < m2 →
  (vec A V).1 * (vec A V).1 + (vec A V).2 * (vec A V).2 = m1 * m1 →
  (vec C V).1 * (vec C V).1 + (vec C V).2 * (vec C V).2 = m2 * m2 →
  dot (vec A V) (vec C V) = c * (m1 * m2) → -1 <= c <= 1 →
  angle_value (Some A) (Some V) (Some C) = Some (acos c * 180 / PI).
Proof.
  intros HA HV HC H1 H2 E1 E2 Hd Hc. unfold angle_value, angle_at.
  rewrite HA, HV, HC. cbn [orb].
  rewrite (magnitude_eval _ m1), (magnitude_eval _ m2) by (done || lra).
  rewrite decide_False by nra. rewrite Hd.
  replace (c * (m1 * m2) / (m1 * m2)) with c by (field; nra).
  do 4 f_equal. unfold clamp, Rmax, Rmin.
  repeat destruct (Rle_dec _ _); lra.
Qed.

Lemma angle_value_degenerate (A V C : point) :
  (px A = px V ∧ py A = py V) ∨ (px C = px V ∧ py C = py V) →
  angle_value (Some A) (Some V) (Some C) = None.
Proof.
  intros H. unfold angle_value. destruct (_ || _); [done|].
  rewrite decide_True; [done|].
  destruct H as [[Hx Hy]|[Hx Hy]].
  - replace (magnitude (vec A V)) with 0; [lra|]. symmetry.
    apply magnitude_zero. unfold vec; cbn [fst snd]. lra.
  - replace (magnitude (vec C V)) with 0; [lra|]. symmetry.
    apply magnitude_zero. unfold vec; cbn [fst snd]. lra.
Qed.

Lemma low_confidence_high (x y s : R) :
  ¬ s < 0.2 → low_confidence (Point x y (Some s)) = false.
Proof.
  intros H. unfold low_confidence, min_confidence; cbn [pscore].
  by apply bool_decide_eq_false_2.
Qed.

Lemma folded_arms_points :
  _get_point folded_arms_frame "left_shoulder" = Some (Point 0 0 (Some 0.9))
  ∧ _get_point folded_arms_frame "right_shoulder" = Some (Point 100 0 (Some 0.9))
  ∧ _get_point folded_arms_frame "left_elbow" = Some (Point 0 50 (Some 0.9))
  ∧ _get_point folded_arms_frame "right_elbow" = Some (Point 100 50 (Some 0.9))
  ∧ _get_point folded_arms_frame "left_wrist" = Some (Point 0 25 (Some 0.9))
  ∧ _get_point folded_arms_frame "right_wrist" = Some (Point 100 25 (Some 0.9))
  ∧ _get_point folded_arms_frame "left_hip" = Some (Point 0 10 (Some 0.9))
  ∧ _get_point folded_arms_frame "right_hip" = Some (Point 100 10 (Some 0.9))
  ∧ _get_point folded_arms_frame "left_knee" = Some (Point 0 10 (Some 0.9))
  ∧ _get_point folded_arms_frame "right_knee" = Some (Point 100 10 (Some 0.9))
  ∧ _get_point folded_arms_frame "left_ankle" = Some (Point 0 10 (Some 0.9))
  ∧ _get_point folded_arms_frame "right_ankle" = Some (Point 100 10 (Some 0.9)).
Proof. repeat split; reflexivity. Qed.

Lemma folded_arms_angles :
  dict_get (angles_of folded_arms_frame) "left_elbow" = Some 0
  ∧ dict_get (angles_of folded_arms_frame) "right_elbow" = Some 0
  ∧ dict_get (angles_of folded_arms_frame) "left_knee" = None
  ∧ dict_get (angles_of folded_arms_frame) "right_knee" = None.
Proof.
  destruct folded_arms_points
    as (E1 & E2 & E3 & E4 & E5 & E6 & E7 & E8 & E9 & E10 & E11 & E12).
  unfold dict_get.
  rewrite (angles_of_named _ "left_elbow" "left_shoulder" "left_elbow" "left_wrist"),
    (angles_of_named _ "right_elbow" "right_shoulder" "right_elbow" "right_wrist"),
    (angles_of_named _ "left_knee" "left_hip" "left_knee" "left_ankle"),
    (angles_of_named _ "right_knee" "right_hip" "right_knee" "right_ankle")
    by (unfold named_triples; in_list).
  rewrite E1, E2, E3, E4, E5, E6, E7, E8, E9, E10, E11, E12.
  assert (acos 1 * 180 / PI = 0) as Hz
    by (rewrite acos_1; unfold Rdiv; ring).
  repeat split.
  - rewrite (angle_value_eval _ _ _ 50 25 1), Hz;
      first [ apply low_confidence_high; lra
            | unfold vec, dot; cbn [px py fst snd]; lra
            | reflexivity ].
  - rewrite (angle_value_eval _ _ _ 50 25 1), Hz;
      first [ apply low_confidence_high; lra
            | unfold vec, dot; cbn [px py fst snd]; lra
            | reflexivity ].
  - apply angle_value_degenerate. cbn [px py]. lra.
  - apply angle_value_degenerate. cbn [px py]. lra.
Qed.

(** C3, at the frame [folded_arms_frame]. The torso is level and both elbow
    angles are computed, with the value 0: rule 1 as specified answers
    push_up; the code tests the angles for truth, takes 0 for an absent
    angle, finds no other rule and answers that nothing is detected. *)
Theorem folded_arms_not_classified :
  ∃ angles,
    _calculate_joint_angles folded_arms_frame = Ok angles
    ∧ dict_get angles "left_elbow" = Some 0
    ∧ dict_get angles "right_elbow" = Some 0
    ∧ claimed_exercise_type folded_arms_frame angles = Some "push_up"
    ∧ _detect_exercise_type folded_arms_frame angles = None
    ∧ analyze_exercise folded_arms_frame None
      = Ok {| exercise_detected := false;
              exercise_type := "unknown";
              form_score := 0.0;
              feedback := ["No valid exercise detected"];
              joint_angles := angles;
              stage := None |}.
Proof.
  exists (angles_of folded_arms_frame).
  destruct folded_arms_points
    as (E1 & E2 & E3 & E4 & E5 & E6 & E7 & E8 & E9 & E10 & E11 & E12).
  destruct folded_arms_angles as (A1 & A2 & A3 & A4).
  assert (_calculate_joint_angles folded_arms_frame
          = Ok (angles_of folded_arms_frame)) as Ha
    by (apply _calculate_joint_angles_long; simpl; lia).
  assert (_detect_exercise_type folded_arms_frame (angles_of folded_arms_frame)
          = None) as Hd.
  { unfold _detect_exercise_type.
    rewrite E1, E2, E7, E8, E9, E10, A1, A2, A3, A4.
    rewrite if_both_zero_l, !if_both_None_l. cbv zeta.
    cbn [px py]. rdecide. reflexivity. }
  split; [done|]. split; [done|]. split; [done|]. split; [|split; [done|]].
  - unfold claimed_exercise_type. rewrite E1, E2, E7, E8, A1, A2.
    cbv zeta. unfold both_present. cbn [px py]. rdecide. reflexivity.
  - rewrite (analyze_exercise_without folded_arms_frame None
               (angles_of folded_arms_frame) None Ha); [reflexivity| |reflexivity].
    cbn [truthy_str]. exact Hd.
Qed.

(** ** C8: a clean squat *)

Lemma angle_value_range (p1 p2 p3 : option point) (a : R) :
  angle_value p1 p2 p3 = Some a → 0 <= a <= 180.
Proof.
  unfold angle_value. destruct p1, p2, p3; try done.
  destruct (_ || _); [done|]. case_decide; [done|].
  intros [= <-]. apply angle_at_range.
Qed.

Lemma computed_angles_range (kps : list keypoint) (angles : angle_map)
    (k : string) (a : R) :
  _calculate_joint_angles kps = Ok angles → dict_get angles k = Some a →
  0 <= a <= 180.
Proof.
  intros Ha. destruct (decide (length kps < 17)%nat) as [Hlt|Hge].
  - rewrite _calculate_joint_angles_short in Ha by done.
    injection Ha as <-. unfold dict_get. by rewrite lookup_empty.
  - rewrite _calculate_joint_angles_long in Ha by lia. injection Ha as <-.
    unfold dict_get, angles_of.
    destruct (_get_point kps "left_shoulder"), (_get_point kps "left_hip");
      repeat (rewrite lookup_insert; case_decide;
              [apply angle_value_range|]);
      by rewrite lookup_empty.
Qed.

Lemma dict_get_default_Some (angles : angle_map) (k : string) (d a : R) :
  dict_get angles k = Some a → dict_get_default angles k d = Some a.
Proof.
  unfold dict_get, dict_get_default. by destruct (angles !! k) as [[?|]|].
Qed.

Lemma finish_clean (aff : string) : finish aff (1.0, []) = (1.0, [aff]).
Proof.
  unfold finish, py_max, py_min. cbn [fst snd].
  destruct (decide (@nil string = [])) as [_|?]; [|done].
  rewrite (decide_False (P := 1.0 < 1.0)) by lra.
  by rewrite decide_True by lra.
Qed.

(** The stage of a squat whose two knee angles are present, not 0, and
    average to less than 120. *)
Lemma squat_stage_down (angles : angle_map) (l r : R) :
  dict_get angles "left_knee" = Some l → dict_get angles "right_knee" = Some r →
  l ≠ 0 → r ≠ 0 → (l + r) / 2 < 120 →
  _detect_exercise_stage "squat" angles = "down".
Proof.
  intros Hl Hr Hl0 Hr0 Havg. unfold _detect_exercise_stage. rdecide.
  rewrite (dict_get_default_Some _ _ _ _ Hl), (dict_get_default_Some _ _ _ _ Hr).
  rewrite if_both_truthy by done. by rewrite decide_True.
Qed.

Lemma _analyze_squat_clean (kps : list keypoint) (angles : angle_map)
    (l r tv : R) (la ra lh rh : point) :
  dict_get angles "left_knee" = Some l → dict_get angles "right_knee" = Some r →
  l ≠ 0 → r ≠ 0 → 70 <= (l + r) / 2 < 120 →
  dict_get angles "torso_vertical" = Some tv → tv <= 45 →
  _get_point kps "left_ankle" = Some la → _get_point kps "right_ankle" = Some ra →
  _get_point kps "left_hip" = Some lh → _get_point kps "right_hip" = Some rh →
  Rabs (px lh - px rh) * 0.8 <= Rabs (px la - px ra) <= Rabs (px lh - px rh) * 1.8 →
  ¬ knee_over_toe kps → ¬ knee_cave kps →
  _analyze_squat kps angles
  = Ok (1.0, ["Excellent squat form! Keep your weight in your heels."]).
Proof.
  intros Hl Hr Hl0 Hr0 Havg Htv Htv45 Ela Era Elh Erh Hst Hkt Hkc.
  pose proof (squat_stage_down angles l r Hl Hr Hl0 Hr0 (proj2 Havg)) as Hstage.
  cbv beta delta [_analyze_squat].
  rewrite Hl, Hr, Htv, Ela, Era, Elh, Erh, Hstage.
  repeat name_let.
  remember_let left_knee. remember_let right_knee.
  assert (st0 = st) as E0.
  { subst st0 left_knee_angle right_knee_angle.
    rewrite if_both_truthy by done. cbv zeta.
    rewrite decide_True by done.
    rewrite (decide_False (P := (l + r) / 2 > 140)) by lra.
    by rewrite decide_False by lra. }
  assert (st1 = st) as E1.
  { subst st1 left_ankle right_ankle. rewrite E0.
    destruct left_knee as [lk|]; [|done].
    destruct right_knee as [rk|]; [|done]. cbv zeta.
    rewrite !bool_decide_eq_false_2; [done|..]; intros Hgt; apply Hkt;
      exists lk, la, rk, ra; eauto 10. }
  assert (st2 = st) as E2.
  { subst st2 torso_vertical. rewrite E1. unfold truthy.
    destruct (bool_decide (tv ≠ 0)); [|done]. by rewrite decide_False by lra. }
  assert (st3 = st) as E3.
  { subst st3 left_ankle right_ankle left_hip right_hip. rewrite E2. cbv zeta.
    rewrite decide_False by lra. by rewrite decide_False by lra. }
  assert (st4 = st) as E4.
  { subst st4 left_hip right_hip. rewrite E3.
    destruct left_knee as [lk|]; [|done].
    destruct right_knee as [rk|]; [|done]. cbv zeta.
    rewrite decide_False; [done|]. intros Hlt. apply Hkc.
    exists lk, rk, lh, rh. eauto 10. }
  rewrite E4. subst st. by rewrite finish_clean.
Qed.

(** C8. A frame analysed as a squat (by the hint or by the classifier),
    with knee angles that average 100 degrees, a torso 20 degrees from the
    vertical, ankles exactly as far apart as the hips, no knee over its
    toes and no caving knees: the stage is "down", nothing is subtracted,
    the score is 1.0 and the feedback is the single affirmative message. *)
Theorem squat_scenario (kps : list keypoint) (hint : option string)
    (angles : angle_map) (l r : R) (la ra lh rh : point) :
  _calculate_joint_angles kps = Ok angles →
  (if truthy_str hint then hint else _detect_exercise_type kps angles)
  = Some "squat" →
  dict_get angles "left_knee" = Some l → dict_get angles "right_knee" = Some r →
  (l + r) / 2 = 100 →
  dict_get angles "torso_vertical" = Some 20 →
  _get_point kps "left_ankle" = Some la → _get_point kps "right_ankle" = Some ra →
  _get_point kps "left_hip" = Some lh → _get_point kps "right_hip" = Some rh →
  Rabs (px la - px ra) = Rabs (px lh - px rh) →
  ¬ knee_over_toe kps → ¬ knee_cave kps →
  _detect_exercise_stage "squat" angles = "down"
  ∧ _analyze_squat kps angles
    = Ok (1.0, ["Excellent squat form! Keep your weight in your heels."])
  ∧ analyze_exercise kps hint
    = Ok {| exercise_detected := true;
            exercise_type := "squat";
            form_score := 1.0;
            feedback := ["Excellent squat form! Keep your weight in your heels."];
            joint_angles := angles;
            stage := Some "down" |}.
Proof.
  intros Ha Hd Hl Hr Havg Htv Ela Era Elh Erh Hst Hkt Hkc.
  pose proof (computed_angles_range kps angles _ _ Ha Hl) as Rl.
  pose proof (computed_angles_range kps angles _ _ Ha Hr) as Rr.
  assert (l ≠ 0 ∧ r ≠ 0) as [Hl0 Hr0] by (split; lra).
  pose proof (Rabs_pos (px lh - px rh)) as Hw.
  assert (_detect_exercise_stage "squat" angles = "down") as Hstage
    by (apply (squat_stage_down angles l r); first [assumption | lra]).
  assert (_analyze_squat kps angles
          = Ok (1.0, ["Excellent squat form! Keep your weight in your heels."]))
    as Hout.
  { apply (_analyze_squat_clean kps angles l r 20 la ra lh rh);
      first [assumption | lra]. }
  split; [done|]. split; [done|].
  rewrite (analyze_exercise_with kps hint angles "squat" _analyze_squat _
             Ha Hd eq_refl Hout).
  by rewrite Hstage.
Qed.

Lemma squat_frame_points :
  _get_point squat_frame "left_shoulder"
  = Some (Point (-100 + 100 * sin (PI / 9)) (- (100 * cos (PI / 9))) (Some 0.9))
  ∧ _get_point squat_frame "left_hip" = Some (Point (-100) 0 (Some 0.9))
  ∧ _get_point squat_frame "right_hip" = Some (Point 0 0 (Some 0.9))
  ∧ _get_point squat_frame "left_knee" = Some (Point 0 0 (Some 0.9))
  ∧ _get_point squat_frame "right_knee" = Some (Point 100 0 (Some 0.9))
  ∧ _get_point squat_frame "left_ankle"
    = Some (Point (- (100 * cos (5 * PI / 9))) (100 * sin (5 * PI / 9)) (Some 0.9))
  ∧ _get_point squat_frame "right_ankle"
    = Some (Point (100 - 100 * cos (5 * PI / 9)) (100 * sin (5 * PI / 9))
              (Some 0.9)).
Proof. repeat split; reflexivity. Qed.

Lemma sin_cos_square (x : R) : sin x * sin x + cos x * cos x = 1.
Proof. pose proof (sin2_cos2 x) as H. unfold Rsqr in H. lra. Qed.

Lemma degrees_of (n : R) :
  0 <= n <= 180 → acos (cos (n * PI / 180)) * 180 / PI = n.
Proof.
  intros [? ?]. pose proof PI_RGT_0 as Hpi.
  rewrite acos_cos; [field; lra|]. split.
  - apply Rmult_le_pos; [nra|lra].
  - apply (Rmult_le_reg_r 180); [lra|]. unfold Rdiv.
    rewrite Rmult_assoc, Rinv_l by lra. nra.
Qed.

Lemma squat_frame_angles :
  dict_get (angles_of squat_frame) "left_knee" = Some 100
  ∧ dict_get (angles_of squat_frame) "right_knee" = Some 100
  ∧ dict_get (angles_of squat_frame) "torso_vertical" = Some 20.
Proof.
  destruct squat_frame_points as (E1 & E2 & E3 & E4 & E5 & E6 & E7).
  pose proof (sin_cos_square (5 * PI / 9)) as H5.
  pose proof (sin_cos_square (PI / 9)) as H1.
  pose proof (COS_bound (5 * PI / 9)) as B5.
  pose proof (COS_bound (PI / 9)) as B1.
  assert (acos (cos (5 * PI / 9)) * 180 / PI = 100) as A5.
  { replace (5 * PI / 9) with (100 * PI / 180) by field.
    apply degrees_of. lra. }
  assert (acos (cos (PI / 9)) * 180 / PI = 20) as A1.
  { replace (PI / 9) with (20 * PI / 180) by field.
    apply degrees_of. lra. }
  unfold dict_get. split; [|split].
  - rewrite (angles_of_named _ "left_knee" "left_hip" "left_knee" "left_ankle")
      by (unfold named_triples; in_list).
    rewrite E2, E4, E6.
    rewrite (angle_value_eval _ _ _ 100 100 (cos (5 * PI / 9))), A5;
      first [ apply low_confidence_high; lra
            | unfold vec, dot; cbn [px py fst snd]; nra
            | reflexivity ].
  - rewrite (angles_of_named _ "right_knee" "right_hip" "right_knee" "right_ankle")
      by (unfold named_triples; in_list).
    rewrite E3, E5, E7.
    rewrite (angle_value_eval _ _ _ 100 100 (cos (5 * PI / 9))), A5;
      first [ apply low_confidence_high; lra
            | unfold vec, dot; cbn [px py fst snd]; nra
            | reflexivity ].
  - unfold angles_of. rewrite E1, E2. rewrite lookup_insert_eq.
    rewrite (angle_value_eval _ _ _ 100 100 (cos (PI / 9))), A1;
      first [ apply low_confidence_high; lra
            | unfold low_confidence, min_confidence; cbn [pscore];
              apply bool_decide_eq_false_2; lra
            | unfold vec, dot; cbn [px py fst snd]; nra
            | reflexivity ].
Qed.

Lemma squat_scenario_witness :
  _detect_exercise_stage "squat" (angles_of squat_frame) = "down"
  ∧ _analyze_squat squat_frame (angles_of squat_frame)
    = Ok (1.0, ["Excellent squat form! Keep your weight in your heels."])
  ∧ analyze_exercise squat_frame (Some "squat")
    = Ok {| exercise_detected := true;
            exercise_type := "squat";
            form_score := 1.0;
            feedback := ["Excellent squat form! Keep your weight in your heels."];
            joint_angles := angles_of squat_frame;
            stage := Some "down" |}.
Proof.
  destruct squat_frame_points as (E1 & E2 & E3 & E4 & E5 & E6 & E7).
  destruct squat_frame_angles as (A1 & A2 & A3).
  assert (cos (5 * PI / 9) < 0) as Hc.
  { pose proof PI_RGT_0. apply cos_lt_0; lra. }
  apply (squat_scenario squat_frame (Some "squat") (angles_of squat_frame)
           100 100 _ _ _ _
           (_calculate_joint_angles_long squat_frame ltac:(simpl; lia))
           eq_refl A1 A2 ltac:(lra) A3 E6 E7 E2 E3).
  - cbn [px py].
    replace (- (100 * cos (5 * PI / 9)) - (100 - 100 * cos (5 * PI / 9)))
      with (-100 - 0) by ring.
    reflexivity.
  - intros (lk & la & rk & ra & H1 & H2 & H3 & H4 & Hor).
    rewrite E4 in H1. rewrite E6 in H2. rewrite E5 in H3. rewrite E7 in H4.
    injection H1 as <-. injection H2 as <-. injection H3 as <-.
    injection H4 as <-. cbn [px py] in Hor. lra.
  - intros (lk & rk & lh & rh & H1 & H2 & H3 & H4 & Hlt).
    rewrite E4 in H1. rewrite E5 in H2. rewrite E2 in H3. rewrite E3 in H4.
    injection H1 as <-. injection H2 as <-. injection H3 as <-.
    injection H4 as <-. cbn [px py] in Hlt. revert Hlt.
    unfold Rabs. repeat destruct (Rcase_abs _); lra.
Defined.

(** * Further properties of the analyzer *)

(** ** [_get_point] *)

(** X1. [_get_point] finds a point exactly when the name is in the table,
    its index is inside the frame and the keypoint there has both
    coordinates; the point then carries these coordinates and the
    keypoint's confidence.  In every other case the answer is [None]. *)
Theorem _get_point_Some (kps : list keypoint) (name : string) (p : point) :
  _get_point kps name = Some p
  ↔ ∃ i kp, joint_indices !! name = Some i ∧ kps !! i = Some kp
            ∧ kp_x kp = Some (px p) ∧ kp_y kp = Some (py p)
            ∧ kp_score kp = pscore p.
Proof.
  unfold _get_point. split.
  - destruct (joint_indices !! name) as [i|]; [|done].
    case_decide; [done|].
    destruct (kps !! i) as [[[x|] [y|] s]|] eqn:E; try done.
    intros [= <-]. exists i, (Keypoint (Some x) (Some y) s). by cbn.
  - intros (i & kp & -> & Hkp & Hx & Hy & Hs).
    rewrite decide_False by (apply lookup_lt_Some in Hkp; lia).
    rewrite Hkp, Hx, Hy, Hs. by destruct p.
Qed.

(** ** [_calculate_angle] *)

Lemma angle_value_sym (p1 p2 p3 : option point) :
  angle_value p1 p2 p3 = angle_value p3 p2 p1.
Proof.
  destruct p1 as [A|], p2 as [V|], p3 as [C|]; try reflexivity.
  unfold angle_value, angle_at, dot.
  replace (low_confidence C || low_confidence V || low_confidence A)
    with (low_confidence A || low_confidence V || low_confidence C)
    by (by destruct (low_confidence A), (low_confidence V), (low_confidence C)).
  rewrite (Rmult_comm (magnitude (vec C V)) (magnitude (vec A V))).
  replace ((vec C V).1 * (vec A V).1 + (vec C V).2 * (vec A V).2)
    with ((vec A V).1 * (vec C V).1 + (vec A V).2 * (vec C V).2) by ring.
  reflexivity.
Qed.

(** X2. The angle at a vertex does not depend on the order of the two
    neighbours. *)
Theorem _calculate_angle_sym (p1 p2 p3 : option point) :
  ∃ a, _calculate_angle p1 p2 p3 = Ok a ∧ _calculate_angle p3 p2 p1 = Ok a.
Proof.
  exists (angle_value p1 p2 p3). rewrite !_calculate_angle_value.
  by rewrite (angle_value_sym p3 p2 p1).
Qed.

(** ** The angle dictionary *)

(** X3. For a frame of at least 17 keypoints the angle dictionary has the
    eight named keys, whether their angles could be computed or not, and
    the key [torso_vertical] exactly when the left shoulder and the left
    hip are both found; it has no other key. *)
Theorem joint_angles_keys (kps : list keypoint) :
  (17 ≤ length kps)%nat →
  ∃ angles,
    _calculate_joint_angles kps = Ok angles
    ∧ dom angles
      = named_angle_keys
        ∪ (if bool_decide (is_Some (_get_point kps "left_shoulder")
                           ∧ is_Some (_get_point kps "left_hip"))
           then {["torso_vertical"]} else ∅).
Proof.
  intros Hlen. exists (angles_of kps).
  split; [by apply _calculate_joint_angles_long|].
  unfold angles_of, named_angle_keys, named_triples.
  cbn [fmap list_fmap fst list_to_set foldr].
  destruct (_get_point kps "left_shoulder") as [ls|],
           (_get_point kps "left_hip") as [lh|].
  - rewrite bool_decide_eq_true_2 by (split; eauto).
    rewrite !dom_insert_L, dom_empty_L. set_solver.
  - rewrite bool_decide_eq_false_2 by (intros [_ [? ?]]; done).
    rewrite !dom_insert_L, dom_empty_L. set_solver.
  - rewrite bool_decide_eq_false_2 by (intros [[? ?] _]; done).
    rewrite !dom_insert_L, dom_empty_L. set_solver.
  - rewrite bool_decide_eq_false_2 by (intros [[? ?] _]; done).
    rewrite !dom_insert_L, dom_empty_L. set_solver.
Qed.

Lemma joint_angles_keys_witness :
  ∃ angles,
    _calculate_joint_angles folded_arms_frame = Ok angles
    ∧ dom angles
      = named_angle_keys
        ∪ (if bool_decide (is_Some (_get_point folded_arms_frame "left_shoulder")
                           ∧ is_Some (_get_point folded_arms_frame "left_hip"))
           then {["torso_vertical"]} else ∅).
Proof. apply (joint_angles_keys folded_arms_frame). simpl. lia. Defined.

(** X4. Every angle of the dictionary of a frame, [torso_vertical]
    included, lies between 0 and 180 degrees. *)
Theorem joint_angles_in_range (kps : list keypoint) (angles : angle_map)
    (k : string) (a : R) :
  _calculate_joint_angles kps = Ok angles → angles !! k = Some (Some a) →
  0 <= a <= 180.
Proof.
  intros Ha Hk. apply (computed_angles_range kps angles k a Ha).
  unfold dict_get. by rewrite Hk.
Qed.


Lemma joint_angles_in_range_witness : 0 <= 20 <= 180.
Proof.
  destruct squat_frame_angles as (_ & _ & A3). unfold dict_get in A3.
  destruct (angles_of squat_frame !! "torso_vertical") as [[a|]|] eqn:E;
    try discriminate A3.
  injection A3 as ->.
  apply (joint_angles_in_range squat_frame (angles_of squat_frame)
           "torso_vertical" 20).
  - apply _calculate_joint_angles_long. simpl. lia.
  - exact E.
Defined.



(** ** What the classifier and the stage detector can answer *)

Lemma _detect_exercise_type_registered (kps : list keypoint) (angles : angle_map)
    (s : string) :
  _detect_exercise_type kps angles = Some s →
  s ∈ ["push_up"; "squat"; "plank"; "jumping_jack"].
Proof.
  unfold _detect_exercise_type.
  destruct (_get_point kps "left_shoulder") as [ls|]; [|done].
  destruct (_get_point kps "right_shoulder") as [rs|]; [|done].
  destruct (_get_point kps "left_hip") as [lh|]; [|done].
  destruct (_get_point kps "right_hip") as [rh|]; [|done].
  cbv zeta.
  destruct (if_both_cases (dict_get angles "left_elbow")
              (dict_get angles "right_elbow")
              (λ l r, if decide ((l + r) / 2 < 120) then Some "push_up"
                      else Some "plank") None)
    as [(x & y & _ & _ & _ & _ & ->)|[_ ->]];
  destruct (if_both_cases (dict_get angles "left_knee")
              (dict_get angles "right_knee")
              (λ l r, if decide ((l + r) / 2 < 160) then Some "squat"
                      else None) None)
    as [(x' & y' & _ & _ & _ & _ & ->)|[_ ->]];
  destruct (_get_point kps "left_knee"), (_get_point kps "right_knee");
  unfold or_else; repeat case_decide; intros [= <-]; in_list.
Qed.



(** ** The rule order of the classifier *)

Lemma if_both_present (A : Type) (a b : option R) (f : R → R → A) (g : A) :
  a ≠ Some 0 → b ≠ Some 0 → if_both a b f g = both_present a b f g.
Proof.
  intros Ha Hb. destruct a as [x|], b as [y|]; try reflexivity.
  rewrite if_both_truthy by congruence. reflexivity.
Qed.

Lemma angle_value_no_vertex (p1 p3 : option point) : angle_value p1 None p3 = None.
Proof. by destruct p1. Qed.

Lemma computed_knee_angles_need_knees (kps : list keypoint) (angles : angle_map) :
  _calculate_joint_angles kps = Ok angles →
  (_get_point kps "left_knee" = None → dict_get angles "left_knee" = None)
  ∧ (_get_point kps "right_knee" = None → dict_get angles "right_knee" = None).
Proof.
  intros Ha. destruct (decide (length kps < 17)%nat) as [Hlt|Hge].
  - rewrite _calculate_joint_angles_short in Ha by done. injection Ha as <-.
    unfold dict_get. rewrite !lookup_empty. done.
  - rewrite _calculate_joint_angles_long in Ha by lia. injection Ha as <-.
    unfold dict_get.
    rewrite (angles_of_named _ "left_knee" "left_hip" "left_knee" "left_ankle"),
      (angles_of_named _ "right_knee" "right_hip" "right_knee" "right_ankle")
      by (unfold named_triples; in_list).
    split; intros ->; apply angle_value_no_vertex.
Qed.

(** X7. On the angles computed from the frame, and as long as no elbow or
    knee angle is exactly 0, the classifier is the ordered decision
    procedure of the specification: the four torso landmarks are required;
    a level torso with both elbow angles gives push_up below an average of
    120 and plank otherwise; else both knee angles averaging below 160 give
    squat; else shoulders wider than 1.5 times the hips give jumping_jack;
    else nothing is detected. *)
Theorem classifier_follows_rule_order (kps : list keypoint) (angles : angle_map) :
  _calculate_joint_angles kps = Ok angles →
  (∀ k, k ∈ ["left_elbow"; "right_elbow"; "left_knee"; "right_knee"] →
        dict_get angles k ≠ Some 0) →
  _detect_exercise_type kps angles = claimed_exercise_type kps angles.
Proof.
  intros Ha Hnz.
  destruct (computed_knee_angles_need_knees kps angles Ha) as [Hlk Hrk].
  unfold _detect_exercise_type, claimed_exercise_type.
  destruct (_get_point kps "left_shoulder") as [ls|]; [|done].
  destruct (_get_point kps "right_shoulder") as [rs|]; [|done].
  destruct (_get_point kps "left_hip") as [lh|]; [|done].
  destruct (_get_point kps "right_hip") as [rh|]; [|done].
  cbv zeta.
  rewrite !if_both_present by (apply Hnz; in_list).
  f_equal. f_equal.
  - destruct (_get_point kps "left_knee") as [lk|].
    + destruct (_get_point kps "right_knee") as [rk|]; [done|].
      rewrite (Hrk eq_refl). by destruct (dict_get angles "left_knee").
    + by rewrite (Hlk eq_refl).
  - destruct (decide (Rabs (px ls - px rs) > Rabs (px lh - px rh) * 1.5)),
             (decide (Rabs (px ls - px rs) > 1.5 * Rabs (px lh - px rh)));
      (done || lra).
Qed.

Lemma bent_arms_points :
  _get_point bent_arms_frame "left_shoulder" = Some (Point 0 0 (Some 0.9))
  ∧ _get_point bent_arms_frame "right_shoulder" = Some (Point 100 0 (Some 0.9))
  ∧ _get_point bent_arms_frame "left_elbow" = Some (Point 0 50 (Some 0.9))
  ∧ _get_point bent_arms_frame "right_elbow" = Some (Point 100 50 (Some 0.9))
  ∧ _get_point bent_arms_frame "left_wrist" = Some (Point 25 50 (Some 0.9))
  ∧ _get_point bent_arms_frame "right_wrist" = Some (Point 125 50 (Some 0.9))
  ∧ _get_point bent_arms_frame "left_hip" = Some (Point 0 10 (Some 0.9))
  ∧ _get_point bent_arms_frame "right_hip" = Some (Point 100 10 (Some 0.9))
  ∧ _get_point bent_arms_frame "left_knee" = Some (Point 0 10 (Some 0.9))
  ∧ _get_point bent_arms_frame "right_knee" = Some (Point 100 10 (Some 0.9))
  ∧ _get_point bent_arms_frame "left_ankle" = Some (Point 0 10 (Some 0.9))
  ∧ _get_point bent_arms_frame "right_ankle" = Some (Point 100 10 (Some 0.9)).
Proof. repeat split; reflexivity. Qed.

Lemma bent_arms_angles :
  dict_get (angles_of bent_arms_frame) "left_elbow" = Some 90
  ∧ dict_get (angles_of bent_arms_frame) "right_elbow" = Some 90
  ∧ dict_get (angles_of bent_arms_frame) "left_knee" = None
  ∧ dict_get (angles_of bent_arms_frame) "right_knee" = None.
Proof.
  destruct bent_arms_points
    as (E1 & E2 & E3 & E4 & E5 & E6 & E7 & E8 & E9 & E10 & E11 & E12).
  unfold dict_get.
  rewrite (angles_of_named _ "left_elbow" "left_shoulder" "left_elbow" "left_wrist"),
    (angles_of_named _ "right_elbow" "right_shoulder" "right_elbow" "right_wrist"),
    (angles_of_named _ "left_knee" "left_hip" "left_knee" "left_ankle"),
    (angles_of_named _ "right_knee" "right_hip" "right_knee" "right_ankle")
    by (unfold named_triples; in_list).
  rewrite E1, E2, E3, E4, E5, E6, E7, E8, E9, E10, E11, E12.
  assert (acos 0 * 180 / PI = 90) as Hz
    by (rewrite acos_0; field; pose proof PI_RGT_0; lra).
  repeat split.
  - rewrite (angle_value_eval _ _ _ 50 25 0), Hz;
      first [ apply low_confidence_high; lra
            | unfold vec, dot; cbn [px py fst snd]; lra
            | reflexivity ].
  - rewrite (angle_value_eval _ _ _ 50 25 0), Hz;
      first [ apply low_confidence_high; lra
            | unfold vec, dot; cbn [px py fst snd]; lra
            | reflexivity ].
  - apply angle_value_degenerate. cbn [px py]. lra.
  - apply angle_value_degenerate. cbn [px py]. lra.
Qed.

Lemma classifier_follows_rule_order_witness :
  _detect_exercise_type bent_arms_frame (angles_of bent_arms_frame)
  = claimed_exercise_type bent_arms_frame (angles_of bent_arms_frame).
Proof.
  apply (classifier_follows_rule_order bent_arms_frame (angles_of bent_arms_frame)).
  - apply _calculate_joint_angles_long. simpl. lia.
  - destruct bent_arms_angles as (A1 & A2 & A3 & A4). intros k Hk.
    apply elem_of_cons in Hk as [->|Hk]; [rewrite A1; intros [= H]; lra|].
    apply elem_of_cons in Hk as [->|Hk]; [rewrite A2; intros [= H]; lra|].
    apply elem_of_cons in Hk as [->|Hk]; [by rewrite A3|].
    apply elem_of_cons in Hk as [->|Hk]; [by rewrite A4|].
    exact (False_ind _ (proj1 (elem_of_nil _) Hk)).
Defined.

(** ** Scaling and mirroring a frame *)

Lemma angle_value_similar (A V C A' V' C' : point) (k1 k2 : R) :
  0 < k1 → 0 < k2 →
  low_confidence A' = low_confidence A →
  low_confidence V' = low_confidence V →
  low_confidence C' = low_confidence C →
  magnitude (vec A' V') = k1 * magnitude (vec A V) →
  magnitude (vec C' V') = k2 * magnitude (vec C V) →
  dot (vec A' V') (vec C' V') = k1 * k2 * dot (vec A V) (vec C V) →
  angle_value (Some A') (Some V') (Some C') = angle_value (Some A) (Some V) (Some C).
Proof.
  intros Hk1 Hk2 HA HV HC H1 H2 Hd. unfold angle_value, angle_at.
  rewrite HA, HV, HC, H1, H2, Hd.
  destruct (_ || _); [done|].
  destruct (decide (k1 * magnitude (vec A V) * (k2 * magnitude (vec C V)) = 0))
    as [Hz|Hz],
    (decide (magnitude (vec A V) * magnitude (vec C V) = 0)) as [Hz'|Hz'];
    try done.
  - exfalso. apply Hz'. apply Rmult_integral in Hz as [Hz|Hz];
      apply Rmult_integral in Hz as [Hz|Hz]; try lra; rewrite Hz; lra.
  - exfalso. apply Hz.
    replace (k1 * magnitude (vec A V) * (k2 * magnitude (vec C V)))
      with (k1 * k2 * (magnitude (vec A V) * magnitude (vec C V))) by ring.
    rewrite Hz'. ring.
  - do 5 f_equal. field. repeat split; try lra.
    + intros E. apply Hz'. rewrite E. ring.
    + intros E. apply Hz'. rewrite E. ring.
Qed.








Lemma _get_point_mirror (kps : list keypoint) (name : string) :
  _get_point (mirror_frame kps) name = mirror_point <$> _get_point kps name.
Proof.
  unfold _get_point, mirror_frame.
  destruct (joint_indices !! name) as [i|]; [|reflexivity].
  rewrite length_fmap, list_lookup_fmap.
  case_decide; [reflexivity|].
  destruct (kps !! i) as [[[x|] [y|] s]|]; reflexivity.
Qed.

Lemma magnitude_mirror (a b : R) : magnitude (- a, b) = magnitude (a, b).
Proof. unfold magnitude; cbn [fst snd]. f_equal. ring. Qed.

Lemma vec_mirror (P Q : point) :
  vec (mirror_point P) (mirror_point Q) = (- (vec P Q).1, (vec P Q).2).
Proof. unfold vec, mirror_point; cbn [px py fst snd]. f_equal; ring. Qed.

Lemma angle_value_mirror (p1 p2 p3 : option point) :
  angle_value (mirror_point <$> p1) (mirror_point <$> p2) (mirror_point <$> p3)
  = angle_value p1 p2 p3.
Proof.
  destruct p1 as [A|], p2 as [V|], p3 as [C|]; try reflexivity.
  cbn [fmap option_fmap option_map].
  apply (angle_value_similar _ _ _ _ _ _ 1 1); try done; try lra.
  - rewrite vec_mirror, Rmult_1_l. destruct (vec A V). apply magnitude_mirror.
  - rewrite vec_mirror, Rmult_1_l. destruct (vec C V). apply magnitude_mirror.
  - rewrite !vec_mirror. unfold dot; cbn [fst snd]. ring.
Qed.

Lemma angles_of_mirror (kps : list keypoint) :
  angles_of (mirror_frame kps) = angles_of kps.
Proof.
  unfold angles_of. rewrite !_get_point_mirror, !angle_value_mirror.
  destruct (_get_point kps "left_shoulder") as [ls|],
           (_get_point kps "left_hip") as [lh|]; try reflexivity.
  cbn [fmap option_fmap option_map]. f_equal.
  apply (angle_value_similar _ _ _ _ _ _ 1 1); try done; try lra.
  - rewrite Rmult_1_l. unfold vec, mirror_point, magnitude; cbn [px py fst snd].
    f_equal. ring.
  - rewrite vec_mirror, Rmult_1_l. destruct (vec ls lh). apply magnitude_mirror.
  - unfold dot, vec, mirror_point; cbn [px py fst snd]. ring.
Qed.

(** X9. Mirroring a frame in the vertical axis (every x replaced by its
    opposite, the landmarks keeping their names) leaves the angle
    dictionary unchanged, [torso_vertical] included. *)
Theorem mirror_invariance (kps : list keypoint) :
  ∃ angles,
    _calculate_joint_angles kps = Ok angles
    ∧ _calculate_joint_angles (mirror_frame kps) = Ok angles.
Proof.
  destruct (decide (length kps < 17)%nat) as [Hlt|Hge].
  - exists ∅. rewrite (_calculate_joint_angles_short kps) by done.
    rewrite _calculate_joint_angles_short; [done|].
    unfold mirror_frame. by rewrite length_fmap.
  - exists (angles_of kps). rewrite (_calculate_joint_angles_long kps) by lia.
    rewrite _calculate_joint_angles_long.
    + by rewrite angles_of_mirror.
    + unfold mirror_frame. rewrite length_fmap. lia.
Qed.

(** ** Scores and feedback of the rule sets *)









(** ** How low a score can get *)

Lemma floor_if_both (c : R) (a b : option R)
    (f : R → R → R * list string) (st : R * list string) :
  (∀ l r, floor c (f l r)) → floor c st → floor c (if_both a b f st).
Proof.
  intros Hf Hst. unfold if_both. destruct a, b; try done.
  destruct (_ && _); auto.
Qed.
























(** ** Frames in normalized coordinates *)

Lemma normalized_point (kps : list keypoint) (name : string) (p : point) :
  normalized kps → _get_point kps name = Some p →
  0 <= px p <= 1 ∧ 0 <= py p <= 1.
Proof.
  intros Hn Hp. apply _get_point_Some in Hp as (i & kp & _ & Hkp & Hx & Hy & _).
  destruct (Hn kp) as [Hnx Hny]; [by eapply list_elem_of_lookup_2|].
  split; [by apply Hnx|by apply Hny].
Qed.

Lemma unit_distance (a b c d : R) :
  0 <= a <= 1 → 0 <= b <= 1 → 0 <= c <= 1 → 0 <= d <= 1 →
  sqrt ((a - b) * (a - b) + (c - d) * (c - d)) <= 2.
Proof.
  intros Ha Hb Hc Hd. rewrite <- (sqrt_square 2) by lra.
  apply sqrt_le_1_alt. nra.
Qed.

Lemma unit_difference (a b : R) :
  0 <= a <= 1 → 0 <= b <= 1 → Rabs (a - b) <= 1.
Proof. intros Ha Hb. unfold Rabs. destruct (Rcase_abs _); lra. Qed.

(** X13. On a frame in normalized coordinates (all coordinates in [0, 1],
    as a pose model delivers them) no plank rule can fire: the three rules
    compare distances with 30 and 40.  Whatever the pose, the plank
    analysis answers the score 1.0 and the affirmative message. *)
Theorem plank_on_normalized_frame (kps : list keypoint) (angles : angle_map) :
  normalized kps →
  _analyze_plank kps angles
  = Ok (1.0, ["Great plank form! Keep your core engaged and breathe steadily."]).
Proof.
  intros Hn. cbv beta delta [_analyze_plank].
  repeat name_let.
  repeat match goal with
         | x := _get_point kps _ : option point |- _ => remember_let x
         end.
  assert (∀ p q, 0 <= py p <= 1 → 0 <= py q <= 1 → 0 <= py p + py q <= 2)
    as Hsum by (intros; lra).
  assert (st0 = st) as E0.
  { subst st0.
    destruct left_shoulder as [ls|]; [|done].
    destruct right_shoulder as [rs|]; [|done].
    destruct left_hip as [lh|]; [|done].
    destruct right_hip as [rh|]; [|done]. cbv zeta.
    destruct (normalized_point kps _ ls Hn Eleft_shoulder) as [_ ?].
    destruct (normalized_point kps _ rs Hn Eright_shoulder) as [_ ?].
    destruct (normalized_point kps _ lh Hn Eleft_hip) as [_ ?].
    destruct (normalized_point kps _ rh Hn Eright_hip) as [_ ?].
    rewrite decide_False; [done|].
    unfold Rabs. destruct (Rcase_abs _); lra. }
  assert (st1 = st) as E1.
  { subst st1. rewrite E0.
    destruct left_ankle as [la|]; [|done].
    destruct right_ankle as [ra|]; [|done].
    destruct left_hip as [lh|]; [|done].
    destruct right_hip as [rh|]; [|done]. cbv zeta.
    destruct (normalized_point kps _ la Hn Eleft_ankle) as [_ ?].
    destruct (normalized_point kps _ ra Hn Eright_ankle) as [_ ?].
    destruct (normalized_point kps _ lh Hn Eleft_hip) as [_ ?].
    destruct (normalized_point kps _ rh Hn Eright_hip) as [_ ?].
    rewrite decide_False; [done|].
    unfold Rabs. destruct (Rcase_abs _); lra. }
  rewrite E1. subst st.
  destruct left_elbow as [le|]; [|by rewrite <- finish_clean].
  destruct right_elbow as [re|]; [|by rewrite <- finish_clean].
  destruct left_shoulder as [ls|]; [|by rewrite <- finish_clean].
  destruct right_shoulder as [rs|]; [|by rewrite <- finish_clean].
  destruct (normalized_point kps _ le Hn Eleft_elbow) as [? ?].
  destruct (normalized_point kps _ re Hn Eright_elbow) as [? ?].
  destruct (normalized_point kps _ ls Hn Eleft_shoulder) as [? ?].
  destruct (normalized_point kps _ rs Hn Eright_shoulder) as [? ?].
  rewrite !math_sqrt_sumsq. cbn [mbind result_bind].
  pose proof (unit_distance (px le) (px ls) (py le) (py ls)).
  pose proof (unit_distance (px re) (px rs) (py re) (py rs)).
  rewrite !bool_decide_eq_false_2 by lra. cbn [orb mbind result_bind].
  by rewrite finish_clean.
Qed.

Lemma standing_frame_normalized : normalized standing_frame.
Proof.
  intros kp Hin. unfold standing_frame in Hin.
  repeat (apply elem_of_cons in Hin as [->|Hin];
          [cbn [mk kp_x kp_y]; split; intros ? [= <-]; lra|]).
  exact (False_ind _ (proj1 (elem_of_nil _) Hin)).
Qed.

Lemma plank_on_normalized_frame_witness :
  _analyze_plank standing_frame ∅
  = Ok (1.0, ["Great plank form! Keep your core engaged and breathe steadily."]).
Proof.
  apply (plank_on_normalized_frame standing_frame ∅).
  exact standing_frame_normalized.
Defined.

(** X14. On a frame in normalized coordinates the torso always counts as
    level (the difference of the shoulder and hip heights is below 30), so
    rule 1 of the classifier decides as soon as the four torso landmarks
    are found and both elbow angles are present and not 0: the answer is
    push_up or plank, whatever the knees and the shoulder width. *)
Theorem classifier_on_normalized_frame (kps : list keypoint) (angles : angle_map)
    (l r : R) :
  normalized kps →
  is_Some (_get_point kps "left_shoulder") →
  is_Some (_get_point kps "right_shoulder") →
  is_Some (_get_point kps "left_hip") → is_Some (_get_point kps "right_hip") →
  dict_get angles "left_elbow" = Some l → dict_get angles "right_elbow" = Some r →
  l ≠ 0 → r ≠ 0 →
  _detect_exercise_type kps angles
  = Some (if decide ((l + r) / 2 < 120) then "push_up" else "plank").
Proof.
  intros Hn [ls Els] [rs Ers] [lh Elh] [rh Erh] Hl Hr Hl0 Hr0.
  unfold _detect_exercise_type. rewrite Els, Ers, Elh, Erh, Hl, Hr. cbv zeta.
  destruct (normalized_point kps _ ls Hn Els) as [_ ?].
  destruct (normalized_point kps _ rs Hn Ers) as [_ ?].
  destruct (normalized_point kps _ lh Hn Elh) as [_ ?].
  destruct (normalized_point kps _ rh Hn Erh) as [_ ?].
  rewrite (decide_True (P := Rabs ((py ls + py rs) / 2 - (py lh + py rh) / 2) < 30))
    by (unfold Rabs; destruct (Rcase_abs _); lra).
  rewrite if_both_truthy by done. by case_decide.
Qed.

Lemma standing_frame_elbows :
  dict_get (angles_of standing_frame) "left_elbow" = Some 180
  ∧ dict_get (angles_of standing_frame) "right_elbow" = Some 180.
Proof.
  unfold dict_get.
  rewrite (angles_of_named _ "left_elbow" "left_shoulder" "left_elbow" "left_wrist"),
    (angles_of_named _ "right_elbow" "right_shoulder" "right_elbow" "right_wrist")
    by (unfold named_triples; in_list).
  change (_get_point standing_frame "left_shoulder")
    with (Some (Point 0.4 0.2 (Some 0.9))).
  change (_get_point standing_frame "left_elbow")
    with (Some (Point 0.4 0.4 (Some 0.9))).
  change (_get_point standing_frame "left_wrist")
    with (Some (Point 0.4 0.5 (Some 0.9))).
  change (_get_point standing_frame "right_shoulder")
    with (Some (Point 0.6 0.2 (Some 0.9))).
  change (_get_point standing_frame "right_elbow")
    with (Some (Point 0.6 0.4 (Some 0.9))).
  change (_get_point standing_frame "right_wrist")
    with (Some (Point 0.6 0.5 (Some 0.9))).
  assert (acos (-1) * 180 / PI = 180) as Hz.
  { replace (-1) with (- (1)) by lra. rewrite acos_opp, acos_1.
    field. pose proof PI_RGT_0. lra. }
  split.
  - rewrite (angle_value_eval _ _ _ 0.2 0.1 (-1)), Hz;
      first [ apply low_confidence_high; lra
            | unfold vec, dot; cbn [px py fst snd]; lra
            | reflexivity ].
  - rewrite (angle_value_eval _ _ _ 0.2 0.1 (-1)), Hz;
      first [ apply low_confidence_high; lra
            | unfold vec, dot; cbn [px py fst snd]; lra
            | reflexivity ].
Qed.

Lemma classifier_on_normalized_frame_witness :
  _detect_exercise_type standing_frame (angles_of standing_frame)
  = Some (if decide ((180 + 180) / 2 < 120) then "push_up" else "plank").
Proof.
  destruct standing_frame_elbows as [El Er].
  apply (classifier_on_normalized_frame standing_frame
           (angles_of standing_frame) 180 180 standing_frame_normalized).
  - by eexists.
  - by eexists.
  - by eexists.
  - by eexists.
  - exact El.
  - exact Er.
  - lra.
  - lra.
Defined.

(** ** What the assessment depends on *)

Lemma body_landmark_index (name : string) :
  name ∈ body_landmarks → ∃ i, joint_indices !! name = Some i ∧ (5 ≤ i < 17)%nat.
Proof.
  intros Hin. unfold body_landmarks in Hin.
  repeat (apply elem_of_cons in Hin as [->|Hin];
          [eexists; split; [reflexivity|vm_compute; lia]|]).
  exact (False_ind _ (proj1 (elem_of_nil _) Hin)).
Qed.

Lemma same_body_points (kps kps' : list keypoint) (name : string) :
  (∀ i, (5 ≤ i < 17)%nat → kps !! i = kps' !! i) →
  name ∈ body_landmarks → _get_point kps name = _get_point kps' name.
Proof.
  intros Hsame Hin. destruct (body_landmark_index name Hin) as (i & Hi & Hr).
  rewrite !(_get_point_lookup _ name i Hi). by rewrite (Hsame i Hr).
Qed.

Ltac body_points H :=
  rewrite ?(H "left_shoulder"), ?(H "right_shoulder"), ?(H "left_elbow"),
    ?(H "right_elbow"), ?(H "left_wrist"), ?(H "right_wrist"), ?(H "left_hip"),
    ?(H "right_hip"), ?(H "left_knee"), ?(H "right_knee"), ?(H "left_ankle"),
    ?(H "right_ankle") by (unfold body_landmarks; in_list).

(** X15. A frame of at least 17 keypoints is read at the indices 5 to 16
    only: two such frames that agree there get the same assessment.  The
    face keypoints (nose, eyes, ears) and any keypoint after the 17th have
    no influence. *)
Theorem assessment_reads_body_only (kps kps' : list keypoint)
    (hint : option string) :
  (17 ≤ length kps)%nat → (17 ≤ length kps')%nat →
  (∀ i, (5 ≤ i < 17)%nat → kps !! i = kps' !! i) →
  ∃ r, analyze_exercise kps hint = Ok r ∧ analyze_exercise kps' hint = Ok r.
Proof.
  intros Hlen Hlen' Hsame.
  pose proof (λ name, same_body_points kps kps' name Hsame) as H.
  destruct (analyze_exercise_total kps' hint) as (r & Hr). exists r.
  split; [|done]. rewrite <- Hr. unfold analyze_exercise.
  rewrite !_calculate_joint_angles_long by done.
  assert (angles_of kps = angles_of kps') as ->
    by (unfold angles_of; body_points H; reflexivity).
  cbn [mbind result_bind].
  assert (_detect_exercise_type kps (angles_of kps')
          = _detect_exercise_type kps' (angles_of kps')) as ->
    by (unfold _detect_exercise_type; body_points H; reflexivity).
  destruct (_ ≫= _) as [analysis|] eqn:E; [|reflexivity].
  apply bind_Some in E as (ex & _ & E).
  assert (analysis kps (angles_of kps') = analysis kps' (angles_of kps')) as ->;
    [|reflexivity].
  apply exercise_types_cases in E as [[_ ->]|[[_ ->]|[[_ ->]|[_ ->]]]].
  - cbv beta delta [_analyze_push_up]. body_points H. reflexivity.
  - cbv beta delta [_analyze_squat]. body_points H. reflexivity.
  - cbv beta delta [_analyze_plank]. body_points H. reflexivity.
  - cbv beta delta [_analyze_jumping_jack]. body_points H. reflexivity.
Qed.

Lemma assessment_reads_body_only_witness :
  ∃ r, analyze_exercise folded_arms_frame None = Ok r
       ∧ analyze_exercise folded_arms_variant None = Ok r.
Proof.
  apply (assessment_reads_body_only folded_arms_frame folded_arms_variant None).
  - simpl. lia.
  - simpl. lia.
  - intros i Hi.
    do 17 (destruct i as [|i]; [first [lia | reflexivity]|]). lia.
Defined.

(** ** Frames of low confidence *)

Lemma all_low_point (kps : list keypoint) (name : string) (p : point) :
  all_low kps → _get_point kps name = Some p → low_confidence p = true.
Proof.
  intros Hlow Hp. apply _get_point_Some in Hp as (i & kp & _ & Hkp & _ & _ & Hs).
  destruct (Hlow kp) as (s & Hs' & Hlt); [by eapply list_elem_of_lookup_2|].
  apply low_confidence_true. exists s. split; [congruence|done].
Qed.

Lemma angle_value_low_vertex (p1 p2 p3 : option point) :
  (∀ V, p2 = Some V → low_confidence V = true) → angle_value p1 p2 p3 = None.
Proof.
  intros H. destruct p1 as [A|], p2 as [V|], p3 as [C|]; try reflexivity.
  unfold angle_value. rewrite (H V eq_refl).
  by rewrite orb_true_r.
Qed.

Lemma all_low_angles (kps : list keypoint) (angles : angle_map) (k : string) :
  all_low kps → _calculate_joint_angles kps = Ok angles →
  dict_get angles k = None.
Proof.
  intros Hlow Ha. destruct (decide (length kps < 17)%nat) as [Hlt|Hge].
  - rewrite _calculate_joint_angles_short in Ha by done. injection Ha as <-.
    unfold dict_get. by rewrite lookup_empty.
  - rewrite _calculate_joint_angles_long in Ha by lia. injection Ha as <-.
    pose proof (λ name V, all_low_point kps name V Hlow) as Hp.
    assert (∀ n p1 p3, angle_value p1 (_get_point kps n) p3 = None) as Hnamed
      by (intros; apply angle_value_low_vertex; apply Hp).
    unfold dict_get, angles_of. rewrite !Hnamed.
    destruct (_get_point kps "left_shoulder") as [ls|];
      destruct (_get_point kps "left_hip") as [lh|] eqn:Elh;
      try rewrite (angle_value_low_vertex _ (Some lh) _)
        by (intros V [= <-]; by apply (Hp "left_hip"));
      repeat (rewrite lookup_insert; case_decide; [reflexivity|]);
      by rewrite lookup_empty.
Qed.

(** X16. When every keypoint of a frame has a confidence below 0.2, no
    angle is computed (every key of the dictionary holds [None]), but the
    coordinates are still used: the classifier, whose rules 1 and 2 need
    angles, answers jumping_jack or nothing, on the shoulder and hip widths
    alone. *)
Theorem low_confidence_frame (kps : list keypoint) (angles : angle_map) :
  all_low kps → _calculate_joint_angles kps = Ok angles →
  (∀ k, dict_get angles k = None)
  ∧ (_detect_exercise_type kps angles = None
     ∨ _detect_exercise_type kps angles = Some "jumping_jack").
Proof.
  intros Hlow Ha.
  pose proof (λ k, all_low_angles kps angles k Hlow Ha) as Hnone.
  split; [done|].
  destruct (_detect_exercise_type kps angles) as [s|] eqn:Hd; [|by left].
  right. f_equal.
  pose proof (_detect_exercise_type_registered kps angles s Hd) as Hs.
  apply elem_of_cons in Hs as [->|Hs].
  { apply _detect_exercise_type_elbows in Hd as [Hl _]; [|by left].
    by rewrite Hnone in Hl. }
  apply elem_of_cons in Hs as [->|Hs].
  { apply _detect_exercise_type_knees in Hd as [Hl _]. by rewrite Hnone in Hl. }
  apply elem_of_cons in Hs as [->|Hs].
  { apply _detect_exercise_type_elbows in Hd as [Hl _]; [|by right].
    by rewrite Hnone in Hl. }
  apply elem_of_cons in Hs as [->|Hs]; [done|].
  exact (False_ind _ (proj1 (elem_of_nil _) Hs)).
Qed.

Lemma noise_frame_all_low : all_low noise_frame.
Proof.
  intros kp Hin. unfold noise_frame in Hin.
  apply list_elem_of_fmap in Hin as (kp' & -> & _).
  exists 0.05. split; [reflexivity|lra].
Qed.

Lemma low_confidence_frame_witness :
  (∀ k, dict_get (angles_of noise_frame) k = None)
  ∧ (_detect_exercise_type noise_frame (angles_of noise_frame) = None
     ∨ _detect_exercise_type noise_frame (angles_of noise_frame)
       = Some "jumping_jack").
Proof.
  apply (low_confidence_frame noise_frame (angles_of noise_frame)
           noise_frame_all_low).
  apply _calculate_joint_angles_long. simpl. lia.
Defined.

(** ** Hints *)

(** X17. A hint that names what the classifier detects changes nothing:
    the assessment with the hint is the assessment without it. *)
Theorem hint_of_detected_type (kps : list keypoint) (angles : angle_map)
    (ex : string) :
  _calculate_joint_angles kps = Ok angles →
  _detect_exercise_type kps angles = Some ex →
  ∃ r, analyze_exercise kps None = Ok r ∧ analyze_exercise kps (Some ex) = Ok r.
Proof.
  intros Ha Hd.
  pose proof (_detect_exercise_type_registered kps angles ex Hd) as Hs.
  assert (∃ analysis, exercise_types !! ex = Some analysis) as (analysis & He).
  { repeat (apply elem_of_cons in Hs as [->|Hs]; [by eexists|]).
    exact (False_ind _ (proj1 (elem_of_nil _) Hs)). }
  destruct (analysis_outcome ex analysis kps angles He) as (out & Hout & _).
  eexists. split.
  - by apply (analyze_exercise_with kps None angles ex analysis out).
  - apply (analyze_exercise_with kps (Some ex) angles ex analysis out);
      try done.
    cbn [truthy_str]. rewrite bool_decide_eq_true_2; [done|].
    intros ->. by rewrite exercise_types_None in He.
Qed.

Lemma hint_of_detected_type_witness :
  ∃ r, analyze_exercise short_frame None = Ok r
       ∧ analyze_exercise short_frame (Some "jumping_jack") = Ok r.
Proof.
  apply (hint_of_detected_type short_frame ∅ "jumping_jack").
  - apply _calculate_joint_angles_short. simpl. lia.
  - destruct short_frame_points as (E1 & E2 & E3 & E4 & E5 & _).
    unfold _detect_exercise_type. rewrite E1, E2, E3, E4, E5.
    rdecide. reflexivity.
Defined.

Lemma no_body_points (kps : list keypoint) (name : string) :
  (length kps ≤ 5)%nat → name ∈ body_landmarks → _get_point kps name = None.
Proof.
  intros Hlen Hin. destruct (body_landmark_index name Hin) as (i & Hi & Hr).
  apply (_get_point_out_of_bounds kps name i Hi). lia.
Qed.

Lemma stage_without_angles :
  _detect_exercise_stage "push_up" ∅ = "up"
  ∧ _detect_exercise_stage "squat" ∅ = "up"
  ∧ _detect_exercise_stage "plank" ∅ = "neutral"
  ∧ _detect_exercise_stage "jumping_jack" ∅ = "neutral".
Proof.
  split; [|split; [|split]].
  - unfold _detect_exercise_stage, dict_get_default. rdecide.
    rewrite !lookup_empty, if_both_truthy by lra. rdecide. reflexivity.
  - unfold _detect_exercise_stage, dict_get_default. rdecide.
    rewrite !lookup_empty, if_both_truthy by lra. rdecide. reflexivity.
  - unfold _detect_exercise_stage. rdecide; reflexivity.
  - apply _detect_exercise_stage_jumping_jack_absent. left. apply truthy_zero.
Qed.

(** X18. With a hint, a frame that has none of the twelve body landmarks
    (at most five keypoints; the empty frame too) is analysed all the same:
    no rule finds its landmarks, so push_up, squat and plank get the score
    1.0 and their affirmative message (stage "up", "up" and "neutral"), and
    jumping_jack gets 0.5 and the "cannot fully analyze" message. *)
Theorem hinted_frame_without_body (kps : list keypoint) :
  (length kps ≤ 5)%nat →
  analyze_exercise kps (Some "push_up")
  = Ok {| exercise_detected := true; exercise_type := "push_up";
          form_score := 1.0;
          feedback := ["Great push-up form! Maintain a straight body line."];
          joint_angles := ∅; stage := Some "up" |}
  ∧ analyze_exercise kps (Some "squat")
    = Ok {| exercise_detected := true; exercise_type := "squat";
            form_score := 1.0;
            feedback := ["Excellent squat form! Keep your weight in your heels."];
            joint_angles := ∅; stage := Some "up" |}
  ∧ analyze_exercise kps (Some "plank")
    = Ok {| exercise_detected := true; exercise_type := "plank";
            form_score := 1.0;
            feedback :=
              ["Great plank form! Keep your core engaged and breathe steadily."];
            joint_angles := ∅; stage := Some "neutral" |}
  ∧ analyze_exercise kps (Some "jumping_jack")
    = Ok {| exercise_detected := true; exercise_type := "jumping_jack";
            form_score := 0.5;
            feedback :=
              ["Cannot fully analyze jumping jack - not all key points detected"];
            joint_angles := ∅; stage := Some "neutral" |}.
Proof.
  intros Hlen.
  pose proof (λ name, no_body_points kps name Hlen) as H.
  assert (_calculate_joint_angles kps = Ok ∅) as Ha
    by (apply _calculate_joint_angles_short; lia).
  destruct stage_without_angles as (S1 & S2 & S3 & S4).
  split; [|split; [|split]].
  - rewrite (analyze_exercise_with kps (Some "push_up") ∅ "push_up"
               _analyze_push_up
               (1.0, ["Great push-up form! Maintain a straight body line."])
               Ha eq_refl eq_refl).
    + by rewrite S1.
    + cbv beta delta [_analyze_push_up]. body_points H.
      unfold dict_get. rewrite !lookup_empty.
      cbn [if_both mbind result_bind]. by rewrite finish_clean.
  - rewrite (analyze_exercise_with kps (Some "squat") ∅ "squat"
               _analyze_squat
               (1.0, ["Excellent squat form! Keep your weight in your heels."])
               Ha eq_refl eq_refl).
    + by rewrite S2.
    + cbv beta delta [_analyze_squat]. body_points H.
      unfold dict_get. rewrite !lookup_empty.
      cbn [if_both]. by rewrite finish_clean.
  - rewrite (analyze_exercise_with kps (Some "plank") ∅ "plank"
               _analyze_plank
               (1.0, ["Great plank form! Keep your core engaged and breathe steadily."])
               Ha eq_refl eq_refl).
    + by rewrite S3.
    + cbv beta delta [_analyze_plank]. body_points H.
      cbn [mbind result_bind]. by rewrite finish_clean.
  - rewrite (analyze_exercise_with kps (Some "jumping_jack") ∅ "jumping_jack"
               _analyze_jumping_jack insufficient_landmarks
               Ha eq_refl eq_refl).
    + by rewrite S4.
    + cbv beta delta [_analyze_jumping_jack]. body_points H. reflexivity.
Qed.

Lemma hinted_frame_without_body_witness :
  analyze_exercise [] (Some "squat")
  = Ok {| exercise_detected := true; exercise_type := "squat";
          form_score := 1.0;
          feedback := ["Excellent squat form! Keep your weight in your heels."];
          joint_angles := ∅; stage := Some "up" |}.
Proof.
  destruct (hinted_frame_without_body []) as (_ & H & _); [simpl; lia|exact H].
Defined.

(** ** Translation of the whole assessment *)





















